(** * DKS_S: the de Koker-Stixrude finite-strain solid equation of state

    A shallow embedding of [burnman/eos/dks_solid.py] (class [DKS_S]).

    Number model.  Python floats are read as real numbers: rounding is
    not modelled, the arithmetic is the ideal one.  What Python does
    besides computing a number is kept: a dictionary lookup of an absent
    key raises [KeyError], and a division of two Python floats by zero
    raises [ZeroDivisionError].  The arguments and the dictionary's
    values are scalar Python floats (the case of a mineral's parameter
    dictionary and of the points the root finder probes).

    Each body reads the dictionary and divides in Python's order of
    evaluation, left to right, so that the exception that escapes is the
    one Python raises first.  A key a body reads more than once is bound
    at its first reading: the dictionary does not change in between. *)

From Stdlib Require Import Reals Ranalysis5 Lra.
From stdpp Require Import gmap strings list fin_maps.

Local Open Scope string_scope.
Local Open Scope R_scope.

(** ** Exceptions *)

(** The exceptions the module can let escape.  [KeyError] carries its
    argument and [Exception] and [ValueError] their message. *)
Inductive exn : Type :=
  | KeyError (arg : string)
  | ZeroDivisionError
  | ValueError (msg : string)
  | RuntimeError (msg : string)
  | Exception (msg : string).

(** The classes an [except] clause can name, and Python's subclass
    relation between them: every class derives from [Exception]. *)
Inductive exn_class : Type :=
  | cKeyError | cZeroDivisionError | cValueError | cRuntimeError | cException.

Definition class_of (e : exn) : exn_class :=
  match e with
  | KeyError _ => cKeyError
  | ZeroDivisionError => cZeroDivisionError
  | ValueError _ => cValueError
  | RuntimeError _ => cRuntimeError
  | Exception _ => cException
  end.

Definition subclass (c d : exn_class) : bool :=
  match d, c with
  | cException, _ => true
  | cKeyError, cKeyError => true
  | cZeroDivisionError, cZeroDivisionError => true
  | cValueError, cValueError => true
  | cRuntimeError, cRuntimeError => true
  | _, _ => false
  end.

(** [except c:] handles [e] when the class of [e] derives from [c]. *)
Definition catches (c : exn_class) (e : exn) : bool := subclass (class_of e) c.

(** ** The result monad *)

Definition result (A : Type) : Type := A + exn.

Definition ret {A} (a : A) : result A := inl a.
Definition raise {A} (e : exn) : result A := inr e.

Definition bind {A B} (m : result A) (k : A -> result B) : result B :=
  match m with
  | inl a => k a
  | inr e => inr e
  end.

Notation "x <- m ;; k" := (bind m (fun x => k))
  (at level 100, m at next level, right associativity).

(** [try: m except ValueError: raise e'] *)
Definition except_ValueError {A} (m : result A) (e' : exn) : result A :=
  match m with
  | inr (ValueError _) => inr e'
  | other => other
  end.

(** ** Parameters and primitive operations *)

(** [params[k]] *)
Definition getitem (params : gmap string R) (k : string) : result R :=
  match params !! k with
  | Some v => ret v
  | None => raise (KeyError k)
  end.

(** [x / y] on Python floats. *)
Definition truediv (x y : R) : result R :=
  if Req_dec_T y 0 then raise ZeroDivisionError else ret (x / y).

(** [np.power(x, y)].  For a positive base numpy returns [x] to the power
    [y], which is [Rpower].  For a base that is not positive the two
    differ: numpy returns 0, 1 or [inf] at the base 0 and a signed integer
    power or [nan] at a negative base, never raising, where [Rpower] is 1.
    So [np_power] stands for [np.power] at a positive base only: every
    theorem below that states the value of a call has the hypotheses that
    make each base positive; at other bases only the kind of outcome
    (returns or raises) and equalities between two calls are stated. *)
Definition np_power (x y : R) : R := Rpower x y.

(** [np.log(x)], the natural logarithm for a positive argument.  At 0
    numpy returns [-inf] and below 0 [nan], without raising, where [ln]
    is 0.  So [np_log] stands for [np.log] at a positive argument only,
    and the theorems below that state the value of a call have the
    hypotheses that make the argument positive. *)
Definition np_log (x : R) : R := ln x.

(** ** The equation of state *)

Module DKS_S.

(** [__finite_strain], eq. S3a *)
Definition __finite_strain (temperature volume : R) (params : gmap string R)
  : result R :=
  V_0 <- getitem params "V_0" ;;
  x <- truediv V_0 volume ;;
  ret ((1 / 2) * (np_power x (2 / 3) - 1)).

(** [__int_aKt_dV]: the integral of aK_T(V,To), assuming
    gamma = gamma_0*(V/Vo)^q *)
Definition __int_aKt_dV (temperature volume : R) (params : gmap string R)
  : result R :=
  Cv <- getitem params "Cv" ;;
  grueneisen_0 <- getitem params "grueneisen_0" ;;
  q_0 <- getitem params "q_0" ;;
  c <- truediv (Cv * grueneisen_0) q_0 ;;
  V_0 <- getitem params "V_0" ;;
  x <- truediv volume V_0 ;;
  ret (c * (np_power x q_0 - 1)).

(** [__F_cmp] *)
Definition __F_cmp (temperature volume : R) (params : gmap string R)
  : result R :=
  f <- __finite_strain temperature volume params ;;
  K_0 <- getitem params "K_0" ;;
  Kprime_0 <- getitem params "Kprime_0" ;;
  Kdprime_0 <- getitem params "Kdprime_0" ;;
  let a3 := 3 * (Kprime_0 - 4) in
  let a4 := 9 * (K_0 * Kdprime_0 + Kprime_0 * (Kprime_0 - 7)) + 143 in
  V_0 <- getitem params "V_0" ;;
  ret (9 * K_0 * V_0 * (f * f / 2 + a3 * f * f * f / 6 + a4 * f * f * f * f / 24)).

(** [__F_th] *)
Definition __F_th (temperature volume : R) (params : gmap string R)
  : result R :=
  S_0 <- getitem params "S_0" ;;
  T_0 <- getitem params "T_0" ;;
  Cv <- getitem params "Cv" ;;
  t <- truediv temperature T_0 ;;
  i <- __int_aKt_dV temperature volume params ;;
  ret (- S_0 * (temperature - T_0)
       - Cv * (temperature * np_log t - (temperature - T_0))
       - i * (temperature - T_0)).

(** [grueneisen_parameter] *)
Definition grueneisen_parameter (pressure temperature volume : R)
  (params : gmap string R) : result R :=
  grueneisen_0 <- getitem params "grueneisen_0" ;;
  V_0 <- getitem params "V_0" ;;
  x <- truediv volume V_0 ;;
  q_0 <- getitem params "q_0" ;;
  ret (grueneisen_0 * np_power x q_0).

(** [pressure].  The last division, by [volume], is written as a plain
    division: its left operand is a numpy float, and it is reached only
    with a [volume] that is not zero, since [__finite_strain] divided by
    [volume] before. *)
Definition pressure (temperature volume : R) (params : gmap string R)
  : result R :=
  f <- __finite_strain temperature volume params ;;
  n <- getitem params "n" ;;
  K_0 <- getitem params "K_0" ;;
  Kprime_0 <- getitem params "Kprime_0" ;;
  Kdprime_0 <- getitem params "Kdprime_0" ;;
  let a3 := 3 * (Kprime_0 - 4) in
  let a4 := 9 * (K_0 * Kdprime_0 + Kprime_0 * (Kprime_0 - 7)) + 143 in
  Cv <- getitem params "Cv" ;;
  T_0 <- getitem params "T_0" ;;
  g <- grueneisen_parameter 0 temperature volume params ;;
  ret (3 * K_0 * np_power (1 + 2 * f) (5 / 2)
         * (f + a3 * f * f / 2 + a4 / 6 * f * f * f)
       + Cv * (temperature - T_0) * g / volume).

(** [_delta_pressure], the residual the root finder works on, and the
    tuple [args = (pressure, temperature, params)] it is called with. *)
Definition _delta_pressure (x : R) (args : R * R * gmap string R) : result R :=
  let '(pressure_, temperature, params) := args in
  p <- pressure temperature x params ;;
  ret (pressure_ - p).

Section Volume.

(** [burnman.tools.bracket(fn, x0, dx, args)] is not part of the
    sources at hand and [scipy.optimize.brentq(f, a, b, args=args)] is
    a library routine: both are parameters.  [bracket] answers with the
    two ends [sol[0]], [sol[1]] of an interval or raises, [brentq]
    answers with a point or raises. *)
Variable bracket :
  (R -> R * R * gmap string R -> result R) -> R -> R ->
  R * R * gmap string R -> result (R * R).
Variable brentq :
  (R -> R * R * gmap string R -> result R) -> R -> R ->
  R * R * gmap string R -> result R.

(** [volume] *)
Definition volume (pressure temperature : R) (params : gmap string R)
  : result R :=
  let args := (pressure, temperature, params) in
  sol <- except_ValueError
           (V_0 <- getitem params "V_0" ;;
            bracket _delta_pressure V_0 (1 / 100 * V_0) args)
           (Exception "Cannot find a volume, perhaps you are outside of the range of validity for the equation of state?") ;;
  brentq _delta_pressure (fst sol) (snd sol) args.

End Volume.

(** [isothermal_bulk_modulus] *)
Definition isothermal_bulk_modulus (pressure temperature volume : R)
  (params : gmap string R) : result R := ret 0.

(** [adiabatic_bulk_modulus] *)
Definition adiabatic_bulk_modulus (pressure temperature volume : R)
  (params : gmap string R) : result R := ret 0.

(** [shear_modulus] *)
Definition shear_modulus (pressure temperature volume : R)
  (params : gmap string R) : result R := ret 0.

(** [heat_capacity_v] *)
Definition heat_capacity_v (pressure temperature volume : R)
  (params : gmap string R) : result R := getitem params "Cv".

(** [heat_capacity_p] *)
Definition heat_capacity_p (pressure temperature volume : R)
  (params : gmap string R) : result R := ret 0.

(** [thermal_expansivity] *)
Definition thermal_expansivity (pressure temperature volume : R)
  (params : gmap string R) : result R := ret 0.

(** [entropy] *)
Definition entropy (pressure temperature volume : R)
  (params : gmap string R) : result R :=
  S_0 <- getitem params "S_0" ;;
  i <- __int_aKt_dV temperature volume params ;;
  Cv <- getitem params "Cv" ;;
  T_0 <- getitem params "T_0" ;;
  t <- truediv temperature T_0 ;;
  ret (S_0 + i + Cv * np_log t).

(** [helmholtz_free_energy] *)
Definition helmholtz_free_energy (pressure temperature volume : R)
  (params : gmap string R) : result R :=
  E_0 <- getitem params "E_0" ;;
  T_0 <- getitem params "T_0" ;;
  S_0 <- getitem params "S_0" ;;
  c <- __F_cmp temperature volume params ;;
  t <- __F_th temperature volume params ;;
  ret (E_0 - T_0 * S_0 + c + t).

(** [gibbs_free_energy] *)
Definition gibbs_free_energy (pressure temperature volume : R)
  (params : gmap string R) : result R :=
  F <- helmholtz_free_energy pressure temperature volume params ;;
  ret (F + pressure * volume).

(** [internal_energy] *)
Definition internal_energy (pressure temperature volume : R)
  (params : gmap string R) : result R :=
  F <- helmholtz_free_energy pressure temperature volume params ;;
  S <- entropy pressure temperature volume params ;;
  ret (F + temperature * S).

Section Enthalpy.

Variable bracket :
  (R -> R * R * gmap string R -> result R) -> R -> R ->
  R * R * gmap string R -> result (R * R).
Variable brentq :
  (R -> R * R * gmap string R -> result R) -> R -> R ->
  R * R * gmap string R -> result R.

(** [enthalpy] *)
Definition enthalpy (pressure temperature volume : R)
  (params : gmap string R) : result R :=
  F <- helmholtz_free_energy pressure temperature volume params ;;
  S <- entropy pressure temperature volume params ;;
  V <- DKS_S.volume bracket brentq pressure temperature params ;;
  ret (F + temperature * S + pressure * V).

End Enthalpy.

(** The keys [validate_parameters] expects, in the order it looks for
    them. *)
Definition expected_keys : list string :=
  ["V_0"; "T_0"; "E_0"; "S_0"; "K_0"; "Kprime_0"; "Kdprime_0"; "n"; "Cv";
   "grueneisen_0"; "q_0"].

(** The loop [for k in keys: if k not in params: raise KeyError(...)]. *)
Fixpoint check_keys (keys : list string) (params : gmap string R)
  : result unit :=
  match keys with
  | [] => ret tt
  | k :: keys' =>
      match params !! k with
      | None => raise (KeyError ("params object missing parameter : " ++ k))
      | Some _ => check_keys keys' params
      end
  end.

(** [validate_parameters]: after the loop over the keys the body is
    empty, no value is looked at. *)
Definition validate_parameters (params : gmap string R) : result unit :=
  check_keys expected_keys params.

End DKS_S.

(** ** The two solvers that [volume] calls *)

(** [volume] is generic in its two solvers (they are parameters of its
    section).  To run it, the module below has a bracketing search and a
    root finder as section 4.3 of the specification words them: "starting
    bracket [V0*1e-2, V0] is probed by a bracketing search that expands
    outward for a sign change in the residual; once a sign-changing
    interval is found, a bisection-derivative-free root finder (Brent's
    method or equivalent) converges to the root within the tolerance".
    Their four settings are the ones section 9 lists: the expansion rate
    per search step, the two iteration bounds and the root tolerance. *)
Module RootFinding.

(** Modelled from the spec: the search loop of [burnman.tools.bracket],
    which is not among the sources.  The interval [lo, hi] is probed: when
    the function has a sign change over it (the product of its two end
    values is not positive), the interval is the answer; otherwise the
    interval is expanded outward by [bracket_search_factor] and probed
    again, at most [max_bracket_iterations] times, after which the search
    reports with a ValueError that it found no sign change. *)
Fixpoint bracket_search (max_bracket_iterations : nat)
  (bracket_search_factor : R)
  (fn : R -> R * R * gmap string R -> result R) (lo hi : R)
  (args : R * R * gmap string R) : result (R * R) :=
  flo <- fn lo args ;;
  fhi <- fn hi args ;;
  if Rle_dec (flo * fhi) 0 then ret (lo, hi)
  else
    match max_bracket_iterations with
    | O => raise (ValueError "Cannot find zero.")
    | S k =>
        lo' <- truediv lo bracket_search_factor ;;
        bracket_search k bracket_search_factor fn
          lo' (hi * bracket_search_factor) args
    end.

(** Modelled from the spec: [burnman.tools.bracket(fn, x0, dx, args)],
    which is not among the sources.  [volume] calls it with [x0 = V_0] and
    [dx = 1e-2 * V_0], and the specification has that call probe the
    starting bracket [V0*1e-2, V0]: the search starts from [dx, x0]. *)
Definition bracket (max_bracket_iterations : nat) (bracket_search_factor : R)
  (fn : R -> R * R * gmap string R -> result R) (x0 dx : R)
  (args : R * R * gmap string R) : result (R * R) :=
  bracket_search max_bracket_iterations bracket_search_factor fn dx x0 args.

(** Modelled from the spec: the loop of the root finder.  [fa] is the
    value of the function at [a], and the function changes sign over
    [a, b].  An interval of width at most twice [root_tolerance] is
    answered with its middle; a wider one is halved, keeping the half over
    which the sign changes, at most [max_root_iterations] times, after
    which the root finder reports that it did not converge. *)
Fixpoint bisect (max_root_iterations : nat) (root_tolerance : R)
  (fn : R -> R * R * gmap string R -> result R) (a b fa : R)
  (args : R * R * gmap string R) : result R :=
  if Rle_dec (b - a) (2 * root_tolerance) then ret ((a + b) / 2)
  else
    match max_root_iterations with
    | O => raise (RuntimeError "Failed to converge")
    | S k =>
        let m := (a + b) / 2 in
        fm <- fn m args ;;
        if Rle_dec (fa * fm) 0
        then bisect k root_tolerance fn a m fa args
        else bisect k root_tolerance fn m b fm args
    end.

(** Modelled from the spec: [scipy.optimize.brentq(f, a, b, args=args)],
    a library routine, as the bisection the specification allows in its
    place.  An interval over which the function has one sign is refused
    with a ValueError. *)
Definition brentq (max_root_iterations : nat) (root_tolerance : R)
  (fn : R -> R * R * gmap string R -> result R) (a b : R)
  (args : R * R * gmap string R) : result R :=
  fa <- fn a args ;;
  fb <- fn b args ;;
  if Rle_dec (fa * fb) 0
  then bisect max_root_iterations root_tolerance fn a b fa args
  else raise (ValueError "f(a) and f(b) must have different signs").

End RootFinding.

(** ** The specification's data model and formulas *)

Module Spec.

(** The Parameter Set of the specification: eleven numeric fields. *)
Record ParameterSet : Type := {
  V0 : R;      (* reference volume *)
  T0 : R;      (* reference temperature *)
  E0 : R;      (* reference internal energy *)
  S0 : R;      (* reference entropy *)
  K0 : R;      (* reference isothermal bulk modulus *)
  K0' : R;     (* its first pressure derivative *)
  K0'' : R;    (* its second pressure derivative *)
  n : R;       (* mole count *)
  Cv : R;      (* heat capacity at constant volume *)
  gamma0 : R;  (* reference Grueneisen parameter *)
  q0 : R       (* its volume-scaling exponent *)
}.

(** The formulas as the specification writes them.  Its real power and
    its logarithm are read as the numeric library's. *)
Section Formulas.

Variable ps : ParameterSet.

(** f = 1/2 [(V0/V)^(2/3) - 1] *)
Definition finite_strain (V : R) : R :=
  1 / 2 * (np_power (V0 ps / V) (2 / 3) - 1).

(** a3 = 3 (K0' - 4) *)
Definition a3 : R := 3 * (K0' ps - 4).

(** a4 = 9 [K0 K0'' + K0' (K0' - 7)] + 143 *)
Definition a4 : R := 9 * (K0 ps * K0'' ps + K0' ps * (K0' ps - 7)) + 143.

(** F_cmp = 9 K0 V0 (f^2/2 + a3 f^3/6 + a4 f^4/24) *)
Definition compressive_free_energy (V : R) : R :=
  let f := finite_strain V in
  9 * K0 ps * V0 ps * (f ^ 2 / 2 + a3 * f ^ 3 / 6 + a4 * f ^ 4 / 24).

(** I(V) = Cv gamma0 / q0 [(V/V0)^q0 - 1] *)
Definition thermal_pressure_integral (V : R) : R :=
  Cv ps * gamma0 ps / q0 ps * (np_power (V / V0 ps) (q0 ps) - 1).

(** F_th = -S0 (T - T0) - Cv [T ln(T/T0) - (T - T0)] - I(V) (T - T0) *)
Definition thermal_free_energy (T V : R) : R :=
  - S0 ps * (T - T0 ps)
  - Cv ps * (T * np_log (T / T0 ps) - (T - T0 ps))
  - thermal_pressure_integral V * (T - T0 ps).

(** gamma(V) = gamma0 (V/V0)^q0 *)
Definition grueneisen_parameter (V : R) : R :=
  gamma0 ps * np_power (V / V0 ps) (q0 ps).

(** P = 3 K0 (1+2f)^(5/2) (f + a3 f^2/2 + a4 f^3/6)
        + Cv (T - T0) gamma(V) / V *)
Definition pressure (T V : R) : R :=
  let f := finite_strain V in
  3 * K0 ps * np_power (1 + 2 * f) (5 / 2)
    * (f + a3 * f ^ 2 / 2 + a4 * f ^ 3 / 6)
  + Cv ps * (T - T0 ps) * grueneisen_parameter V / V.

(** S = S0 + I(V) + Cv ln(T/T0) *)
Definition entropy (T V : R) : R :=
  S0 ps + thermal_pressure_integral V + Cv ps * np_log (T / T0 ps).

(** F = E0 - T0 S0 + F_cmp(V) + F_th(T,V) *)
Definition helmholtz_free_energy (T V : R) : R :=
  E0 ps - T0 ps * S0 ps + compressive_free_energy V
  + thermal_free_energy T V.

End Formulas.

End Spec.

(** The dictionary a Parameter Set is handed over as. *)
Definition dict_of (ps : Spec.ParameterSet) : gmap string R :=
  list_to_map
    [("V_0", Spec.V0 ps); ("T_0", Spec.T0 ps); ("E_0", Spec.E0 ps);
     ("S_0", Spec.S0 ps); ("K_0", Spec.K0 ps); ("Kprime_0", Spec.K0' ps);
     ("Kdprime_0", Spec.K0'' ps); ("n", Spec.n ps); ("Cv", Spec.Cv ps);
     ("grueneisen_0", Spec.gamma0 ps); ("q_0", Spec.q0 ps)].

(** [params] holds the eleven fields of [ps] (and maybe other keys). *)
Definition holds (params : gmap string R) (ps : Spec.ParameterSet) : Prop :=
  dict_of ps ⊆ params.

(** [params] passes for a valid Parameter Set [ps]: it holds the eleven
    fields, the reference volume and temperature are positive, and the
    exponent [q0] is not zero (the domain the specification gives the
    formulas). *)
Definition valid (params : gmap string R) (ps : Spec.ParameterSet) : Prop :=
  holds params ps /\ 0 < Spec.V0 ps /\ 0 < Spec.T0 ps /\ Spec.q0 ps <> 0.

Import DKS_S.

(** *** Sample inputs *)

(** The concrete scenario of the specification:
    V0 = 1.0e-5, T0 = 300, K0 = 250e9, K0' = 4, K0'' = -0.02e-9,
    Cv = 100, gamma0 = 1.5, q0 = 1, S0 = 0, E0 = 0, n = 1. *)
Definition scenario : Spec.ParameterSet :=
  {| Spec.V0 := 1 / 100000; Spec.T0 := 300; Spec.E0 := 0; Spec.S0 := 0;
     Spec.K0 := 250000000000; Spec.K0' := 4;
     Spec.K0'' := - (2 / 100000000000); Spec.n := 1; Spec.Cv := 100;
     Spec.gamma0 := 3 / 2; Spec.q0 := 1 |}.

(** The scenario with a reference volume of zero. *)
Definition scenario_V0_zero : Spec.ParameterSet :=
  {| Spec.V0 := 0; Spec.T0 := 300; Spec.E0 := 0; Spec.S0 := 0;
     Spec.K0 := 250000000000; Spec.K0' := 4;
     Spec.K0'' := - (2 / 100000000000); Spec.n := 1; Spec.Cv := 100;
     Spec.gamma0 := 3 / 2; Spec.q0 := 1 |}.

(** The scenario with an exponent [q0] of zero. *)
Definition scenario_q0_zero : Spec.ParameterSet :=
  {| Spec.V0 := 1 / 100000; Spec.T0 := 300; Spec.E0 := 0; Spec.S0 := 0;
     Spec.K0 := 250000000000; Spec.K0' := 4;
     Spec.K0'' := - (2 / 100000000000); Spec.n := 1; Spec.Cv := 100;
     Spec.gamma0 := 3 / 2; Spec.q0 := 0 |}.

(** The scenario with two moles instead of one. *)
Definition scenario_two_moles : Spec.ParameterSet :=
  {| Spec.V0 := 1 / 100000; Spec.T0 := 300; Spec.E0 := 0; Spec.S0 := 0;
     Spec.K0 := 250000000000; Spec.K0' := 4;
     Spec.K0'' := - (2 / 100000000000); Spec.n := 2; Spec.Cv := 100;
     Spec.gamma0 := 3 / 2; Spec.q0 := 1 |}.


(** Stand-ins for the two solvers, to run [volume] on an input: a
    bracketing search that answers with its first interval
    [x0 - dx, x0 + dx], one that finds no sign change, and a root finder
    that answers with the middle of the interval it is given. *)
Definition bracket_first_interval
  (fn : R -> R * R * gmap string R -> result R) (x0 dx : R)
  (args : R * R * gmap string R) : result (R * R) :=
  ret (x0 - dx, x0 + dx).

Definition bracket_no_sign_change
  (fn : R -> R * R * gmap string R -> result R) (x0 dx : R)
  (args : R * R * gmap string R) : result (R * R) :=
  raise (ValueError "no sign change found").

Definition brentq_midpoint
  (fn : R -> R * R * gmap string R -> result R) (a b : R)
  (args : R * R * gmap string R) : result R :=
  ret ((a + b) / 2).

(** *** Vocabulary of the statements *)

(** A solver is generic in [args]: it uses them only to call [fn], so two
    tuples on which [fn] is the same function get the same answer. *)
Definition generic_in_args {A : Type}
  (solver : (R -> R * R * gmap string R -> result R) -> R -> R ->
            R * R * gmap string R -> result A) : Prop :=
  forall fn x0 x1 args args',
    (forall x, fn x args = fn x args') ->
    solver fn x0 x1 args = solver fn x0 x1 args'.

(** Two dictionaries that both have the key ['n'] and are the same on every
    other key. *)
Definition differ_only_in_n (params1 params2 : gmap string R) : Prop :=
  is_Some (params1 !! "n") /\ is_Some (params2 !! "n")
  /\ forall k, k <> "n" -> params1 !! k = params2 !! k.



(** The Gibbs free energy as it would be if its P V term took the volume
    from [volume(P, T, params)], the way [enthalpy] takes it. *)
Definition gibbs_free_energy_via_volume
  (bracket : (R -> R * R * gmap string R -> result R) -> R -> R ->
             R * R * gmap string R -> result (R * R))
  (brentq : (R -> R * R * gmap string R -> result R) -> R -> R ->
            R * R * gmap string R -> result R)
  (pressure temperature volume : R) (params : gmap string R) : result R :=
  F <- helmholtz_free_energy pressure temperature volume params ;;
  V <- DKS_S.volume bracket brentq pressure temperature params ;;
  ret (F + pressure * V).

(** The message of the exception [volume] raises. *)
Definition cannot_find_a_volume : string :=
  "Cannot find a volume, perhaps you are outside of the range of validity for the equation of state?".

(** *** Further stand-ins and vocabulary *)

(** A root finder that refuses its interval the way [brentq] does when
    the function has one sign at both ends. *)
Definition brentq_same_sign
  (fn : R -> R * R * gmap string R -> result R) (a b : R)
  (args : R * R * gmap string R) : result R :=
  raise (ValueError "f(a) and f(b) must have different signs").

(** The number a call returns (0 for a call that raises), to speak of a
    method as a function of one of its arguments. *)
Definition returned (m : result R) : R :=
  match m with
  | inl x => x
  | inr _ => 0
  end.

(** The outcome is a number or a ZeroDivisionError. *)
Definition number_or_ZeroDivisionError (m : result R) : Prop :=
  match m with
  | inl _ => True
  | inr ZeroDivisionError => True
  | inr _ => False
  end.

(** The scenario with K0'' = 0, for which a3 = 0 and a4 = 35. *)
Definition scenario_a4_positive : Spec.ParameterSet :=
  {| Spec.V0 := 1 / 100000; Spec.T0 := 300; Spec.E0 := 0; Spec.S0 := 0;
     Spec.K0 := 250000000000; Spec.K0' := 4; Spec.K0'' := 0; Spec.n := 1;
     Spec.Cv := 100; Spec.gamma0 := 3 / 2; Spec.q0 := 1 |}.

(** * Properties *)

(** ** Running the monadic code *)

Lemma getitem_lookup (params : gmap string R) k v :
  params !! k = Some v -> getitem params k = ret v.
Proof. intros H. unfold getitem. rewrite H. reflexivity. Qed.

Lemma getitem_missing (params : gmap string R) k :
  params !! k = None -> getitem params k = raise (KeyError k).
Proof. intros H. unfold getitem. rewrite H. reflexivity. Qed.

Lemma getitem_holds params ps k v :
  holds params ps -> dict_of ps !! k = Some v -> getitem params k = ret v.
Proof.
  intros H Hk. apply getitem_lookup.
  exact (lookup_weaken _ _ _ _ Hk H).
Qed.

Lemma holds_dict_of ps : holds (dict_of ps) ps.
Proof. unfold holds. reflexivity. Qed.

Lemma truediv_ret x y : y <> 0 -> truediv x y = ret (x / y).
Proof. intros H. unfold truediv. destruct (Req_dec_T y 0); [contradiction | reflexivity]. Qed.

Lemma truediv_zero x : truediv x 0 = raise ZeroDivisionError.
Proof. unfold truediv. destruct (Req_dec_T 0 0) as [_ | H]; [reflexivity | contradiction H; reflexivity]. Qed.

(** Reads the fields of [ps] out of [params] and steps through the binds. *)
Ltac fields H :=
  repeat first
    [ erewrite (getitem_holds _ _ _ _ H) by reflexivity
    | progress cbn [bind ret snd] ].

Lemma np_power_one y : np_power 1 y = 1.
Proof. unfold np_power, Rpower. rewrite ln_1, Rmult_0_r. apply exp_0. Qed.

Lemma np_log_one : np_log 1 = 0.
Proof. apply ln_1. Qed.

(** ** The properties that are stubbed to zero *)

(** C8: for every pressure, temperature, volume and params (whatever keys
    it has), [isothermal_bulk_modulus], [adiabatic_bulk_modulus],
    [shear_modulus], [heat_capacity_p] and [thermal_expansivity] return 0
    and do not raise. *)
Theorem unsupported_properties_return_zero :
  forall (pressure temperature volume : R) (params : gmap string R),
    isothermal_bulk_modulus pressure temperature volume params = ret 0
    /\ adiabatic_bulk_modulus pressure temperature volume params = ret 0
    /\ shear_modulus pressure temperature volume params = ret 0
    /\ heat_capacity_p pressure temperature volume params = ret 0
    /\ thermal_expansivity pressure temperature volume params = ret 0.
Proof. intros. repeat split. Qed.

(** ** The Grueneisen parameter *)

Lemma grueneisen_parameter_ret params ps P T V :
  holds params ps -> Spec.V0 ps <> 0 ->
  grueneisen_parameter P T V params = ret (Spec.grueneisen_parameter ps V).
Proof.
  intros H HV0. unfold grueneisen_parameter. fields H.
  rewrite truediv_ret by assumption. fields H. reflexivity.
Qed.

(** A positive ratio has a numerator and a denominator that are not
    zero. *)
Lemma Rdiv_pos_nonzero a b : 0 < a / b -> a <> 0 /\ b <> 0.
Proof.
  intros H. split; intros ->.
  - unfold Rdiv in H. rewrite Rmult_0_l in H. lra.
  - unfold Rdiv in H. rewrite Rinv_0, Rmult_0_r in H. lra.
Qed.

(** C9: [grueneisen_parameter] does not look at its pressure and
    temperature arguments: two calls with the same volume and params agree
    whatever the other two arguments are (also when the call raises).  On
    a params with the fields of [ps] it returns gamma0 (V/V0)^q0 wherever
    the ratio V/V0 is positive, and gamma0 itself at V = V0 (V_0 not
    zero). *)
Theorem grueneisen_parameter_of_volume_only :
  forall (params : gmap string R) (P1 T1 P2 T2 V : R),
    grueneisen_parameter P1 T1 V params = grueneisen_parameter P2 T2 V params
    /\ forall ps, holds params ps ->
         (0 < V / Spec.V0 ps ->
            grueneisen_parameter P1 T1 V params
            = ret (Spec.gamma0 ps * np_power (V / Spec.V0 ps) (Spec.q0 ps)))
         /\ (Spec.V0 ps <> 0 ->
               grueneisen_parameter P1 T1 (Spec.V0 ps) params
               = ret (Spec.gamma0 ps)).
Proof.
  intros params P1 T1 P2 T2 V. split; [reflexivity |].
  intros ps H. split.
  - intros Hpos. apply Rdiv_pos_nonzero in Hpos as [_ HV0].
    apply grueneisen_parameter_ret; assumption.
  - intros HV0. rewrite (grueneisen_parameter_ret _ ps) by assumption.
    unfold Spec.grueneisen_parameter.
    replace (Spec.V0 ps / Spec.V0 ps) with 1 by (field; assumption).
    rewrite np_power_one. f_equal. ring.
Qed.

(** On the scenario (gamma0 = 1.5, q0 = 1): at half the reference volume
    the value is 1.5 (1/2)^1, and at the reference volume it is 1.5 for
    two different pressures and temperatures. *)
Lemma grueneisen_parameter_scenario :
  grueneisen_parameter 0 300 (1 / 200000) (dict_of scenario)
  = ret (3 / 2 * np_power (1 / 200000 / (1 / 100000)) 1)
  /\ grueneisen_parameter 0 300 (1 / 100000) (dict_of scenario) = ret (3 / 2)
  /\ grueneisen_parameter 1000000000 2000 (1 / 100000) (dict_of scenario)
     = ret (3 / 2).
Proof.
  split; [| split].
  - refine (proj1 (proj2 (grueneisen_parameter_of_volume_only
                            (dict_of scenario) 0 300 0 300 (1 / 200000))
                     scenario (holds_dict_of scenario)) _).
    cbn [Spec.V0 scenario]. lra.
  - refine (proj2 (proj2 (grueneisen_parameter_of_volume_only
                            (dict_of scenario) 0 300 0 300 0)
                     scenario (holds_dict_of scenario)) _).
    cbn [Spec.V0 scenario]. lra.
  - refine (proj2 (proj2 (grueneisen_parameter_of_volume_only
                            (dict_of scenario) 1000000000 2000 0 300 0)
                     scenario (holds_dict_of scenario)) _).
    cbn [Spec.V0 scenario]. lra.
Defined.

(** ** The code against the specification's formulas *)

Section AgainstSpec.

Variables (params : gmap string R) (ps : Spec.ParameterSet).
Hypothesis Hholds : holds params ps.

Lemma finite_strain_ret T V :
  V <> 0 -> __finite_strain T V params = ret (Spec.finite_strain ps V).
Proof.
  intros HV. unfold __finite_strain. fields Hholds.
  rewrite truediv_ret by assumption. reflexivity.
Qed.

Lemma int_aKt_dV_ret T V :
  Spec.V0 ps <> 0 -> Spec.q0 ps <> 0 ->
  __int_aKt_dV T V params = ret (Spec.thermal_pressure_integral ps V).
Proof.
  intros HV0 Hq0. unfold __int_aKt_dV. fields Hholds.
  rewrite truediv_ret by assumption. fields Hholds.
  rewrite truediv_ret by assumption. reflexivity.
Qed.

Lemma int_aKt_dV_q0_zero T V :
  Spec.q0 ps = 0 -> __int_aKt_dV T V params = raise ZeroDivisionError.
Proof.
  intros Hq0. unfold __int_aKt_dV. fields Hholds.
  rewrite Hq0, truediv_zero. reflexivity.
Qed.

Lemma F_cmp_ret T V :
  V <> 0 -> __F_cmp T V params = ret (Spec.compressive_free_energy ps V).
Proof.
  intros HV. unfold __F_cmp. rewrite finite_strain_ret by assumption.
  fields Hholds. f_equal. unfold Spec.compressive_free_energy, Spec.a3, Spec.a4.
  cbv zeta. field.
Qed.

Lemma F_th_ret T V :
  Spec.V0 ps <> 0 -> Spec.T0 ps <> 0 -> Spec.q0 ps <> 0 ->
  __F_th T V params = ret (Spec.thermal_free_energy ps T V).
Proof.
  intros HV0 HT0 Hq0. unfold __F_th. fields Hholds.
  rewrite truediv_ret by assumption. fields Hholds.
  rewrite int_aKt_dV_ret by assumption. reflexivity.
Qed.

Lemma entropy_ret P T V :
  Spec.V0 ps <> 0 -> Spec.T0 ps <> 0 -> Spec.q0 ps <> 0 ->
  entropy P T V params = ret (Spec.entropy ps T V).
Proof.
  intros HV0 HT0 Hq0. unfold entropy. fields Hholds.
  rewrite int_aKt_dV_ret by assumption. fields Hholds.
  rewrite truediv_ret by assumption. reflexivity.
Qed.

Lemma pressure_ret T V :
  Spec.V0 ps <> 0 -> V <> 0 ->
  pressure T V params = ret (Spec.pressure ps T V).
Proof.
  intros HV0 HV. unfold pressure. rewrite finite_strain_ret by assumption.
  fields Hholds. rewrite (grueneisen_parameter_ret _ ps) by assumption.
  fields Hholds. f_equal. unfold Spec.pressure, Spec.a3, Spec.a4.
  cbv zeta. field. assumption.
Qed.

Lemma helmholtz_free_energy_ret P T V :
  Spec.V0 ps <> 0 -> Spec.T0 ps <> 0 -> Spec.q0 ps <> 0 -> V <> 0 ->
  helmholtz_free_energy P T V params = ret (Spec.helmholtz_free_energy ps T V).
Proof.
  intros HV0 HT0 Hq0 HV. unfold helmholtz_free_energy. fields Hholds.
  rewrite F_cmp_ret by assumption. fields Hholds.
  rewrite F_th_ret by assumption. reflexivity.
Qed.

End AgainstSpec.

(** At the reference volume the finite strain vanishes. *)
Lemma spec_finite_strain_reference ps :
  Spec.V0 ps <> 0 -> Spec.finite_strain ps (Spec.V0 ps) = 0.
Proof.
  intros H. unfold Spec.finite_strain.
  replace (Spec.V0 ps / Spec.V0 ps) with 1 by (field; assumption).
  rewrite np_power_one. field.
Qed.

Lemma spec_thermal_pressure_integral_reference ps :
  Spec.V0 ps <> 0 -> Spec.q0 ps <> 0 ->
  Spec.thermal_pressure_integral ps (Spec.V0 ps) = 0.
Proof.
  intros H Hq. unfold Spec.thermal_pressure_integral.
  replace (Spec.V0 ps / Spec.V0 ps) with 1 by (field; assumption).
  rewrite np_power_one. field. assumption.
Qed.

Lemma spec_helmholtz_reference ps :
  Spec.V0 ps <> 0 -> Spec.T0 ps <> 0 -> Spec.q0 ps <> 0 ->
  Spec.helmholtz_free_energy ps (Spec.T0 ps) (Spec.V0 ps)
  = Spec.E0 ps - Spec.T0 ps * Spec.S0 ps.
Proof.
  intros HV0 HT0 Hq0.
  unfold Spec.helmholtz_free_energy, Spec.compressive_free_energy,
    Spec.thermal_free_energy.
  rewrite spec_finite_strain_reference by assumption.
  rewrite spec_thermal_pressure_integral_reference by assumption.
  cbv zeta.
  replace (Spec.T0 ps / Spec.T0 ps) with 1 by (field; assumption).
  rewrite np_log_one. field.
Qed.

Lemma spec_pressure_reference ps :
  Spec.V0 ps <> 0 -> Spec.pressure ps (Spec.T0 ps) (Spec.V0 ps) = 0.
Proof.
  intros H. unfold Spec.pressure.
  rewrite spec_finite_strain_reference by assumption. cbv zeta.
  field. assumption.
Qed.

(** ** Pressure *)

(** C2 (as amended): for every params holding the eleven fields with
    V_0 > 0, every T and every V > 0, [pressure] returns, without raising,
    3 K0 (1+2f)^(5/2) (f + a3 f^2/2 + a4 f^3/6) + Cv (T-T0) gamma(V)/V with
    f = 1/2 [(V0/V)^(2/3) - 1], a3 = 3 (K0' - 4),
    a4 = 9 [K0 K0'' + K0' (K0' - 7)] + 143 and gamma(V) = gamma0 (V/V0)^q0.
    There every power has a positive base: V0/V, V/V0 and
    1 + 2f = (V0/V)^(2/3). *)
Theorem pressure_closed_form :
  forall (params : gmap string R) (ps : Spec.ParameterSet) (T V : R),
    holds params ps -> 0 < Spec.V0 ps -> 0 < V ->
    pressure T V params = ret (Spec.pressure ps T V)
    /\ 0 < Spec.V0 ps / V /\ 0 < V / Spec.V0 ps
    /\ 0 < 1 + 2 * Spec.finite_strain ps V.
Proof.
  intros params ps T V H HV0 HV.
  split; [apply pressure_ret; [assumption | lra | lra] |].
  split; [apply Rdiv_lt_0_compat; lra |].
  split; [apply Rdiv_lt_0_compat; lra |].
  unfold Spec.finite_strain.
  replace (1 + 2 * (1 / 2 * (np_power (Spec.V0 ps / V) (2 / 3) - 1)))
    with (np_power (Spec.V0 ps / V) (2 / 3)) by field.
  unfold np_power, Rpower. apply exp_pos.
Qed.

(** On the specification's scenario, [pressure(300, 1.0e-5, params)] is 0. *)
Lemma pressure_closed_form_scenario :
  pressure 300 (1 / 100000) (dict_of scenario) = ret 0.
Proof.
  refine (eq_trans
            (proj1 (pressure_closed_form (dict_of scenario) scenario 300
                      (1 / 100000) (holds_dict_of scenario) _ _))
            (f_equal ret (spec_pressure_reference scenario _)));
    cbn [Spec.V0 scenario]; lra.
Defined.

(** C2 (as stated) fails: a params with the eleven fields and V_0 = 0
    passes [validate_parameters], and [pressure] raises ZeroDivisionError on
    it at the volume 1 > 0, in [grueneisen_parameter]'s [volume/params['V_0']]. *)
Lemma pressure_raises_when_V0_is_zero :
  validate_parameters (dict_of scenario_V0_zero) = ret tt
  /\ 0 < 1
  /\ pressure 300 1 (dict_of scenario_V0_zero) = raise ZeroDivisionError.
Proof.
  split; [reflexivity |]. split; [lra |].
  pose proof (holds_dict_of scenario_V0_zero) as H.
  unfold pressure. rewrite (finite_strain_ret _ _ H) by lra.
  fields H. unfold grueneisen_parameter. fields H.
  cbn [Spec.V0 scenario_V0_zero]. rewrite truediv_zero. reflexivity.
Qed.

(** ** The thermal-pressure integral *)

(** C6: on a params holding the fields of [ps] with V_0 not zero,
    [__int_aKt_dV] divides by q_0: when q0 is not zero it returns, and
    what it returns is Cv gamma0 / q0 [(V/V0)^q0 - 1] wherever the ratio
    V/V0 is positive; when q0 is zero the division raises
    ZeroDivisionError (the code has no branch for q0 = 0, neither the
    limit form nor a check of its own); so it returns exactly when q0 is
    not zero. *)
Theorem int_aKt_dV_defined_iff_q0_nonzero :
  forall (params : gmap string R) (ps : Spec.ParameterSet) (T V : R),
    holds params ps -> Spec.V0 ps <> 0 ->
    (Spec.q0 ps <> 0 -> 0 < V / Spec.V0 ps ->
       __int_aKt_dV T V params
       = ret (Spec.Cv ps * Spec.gamma0 ps / Spec.q0 ps
              * (np_power (V / Spec.V0 ps) (Spec.q0 ps) - 1)))
    /\ (Spec.q0 ps = 0 -> __int_aKt_dV T V params = raise ZeroDivisionError)
    /\ ((exists r, __int_aKt_dV T V params = ret r) <-> Spec.q0 ps <> 0).
Proof.
  intros params ps T V H HV0.
  assert (Hnz : Spec.q0 ps <> 0 ->
                __int_aKt_dV T V params = ret (Spec.thermal_pressure_integral ps V))
    by (intros Hq; apply int_aKt_dV_ret; assumption).
  assert (Hz : Spec.q0 ps = 0 -> __int_aKt_dV T V params = raise ZeroDivisionError)
    by (apply int_aKt_dV_q0_zero; assumption).
  split; [intros Hq _; exact (Hnz Hq) |]. split; [exact Hz |]. split.
  - intros [r Hr] Hq. rewrite (Hz Hq) in Hr. discriminate.
  - intros Hq. eexists. apply Hnz, Hq.
Qed.

(** The scenario (Cv = 100, gamma0 = 1.5, q0 = 1) returns its closed form
    at half the reference volume, the same scenario with q0 = 0 raises. *)
Lemma int_aKt_dV_scenarios :
  __int_aKt_dV 300 (1 / 200000) (dict_of scenario)
  = ret (100 * (3 / 2) / 1 * (np_power (1 / 200000 / (1 / 100000)) 1 - 1))
  /\ __int_aKt_dV 300 (1 / 200000) (dict_of scenario_q0_zero)
     = raise ZeroDivisionError.
Proof.
  split.
  - refine (proj1 (int_aKt_dV_defined_iff_q0_nonzero (dict_of scenario)
                     scenario 300 (1 / 200000) (holds_dict_of scenario) _)
              _ _);
      cbn [Spec.V0 Spec.q0 scenario]; lra.
  - refine (proj1 (proj2 (int_aKt_dV_defined_iff_q0_nonzero
                            (dict_of scenario_q0_zero) scenario_q0_zero
                            300 (1 / 200000)
                            (holds_dict_of scenario_q0_zero) _))
              eq_refl).
    cbn [Spec.V0 scenario_q0_zero]. lra.
Defined.

(** ** Helmholtz free energy *)

(** C5: for a valid Parameter Set, [__F_cmp] is the fourth-order expansion
    9 K0 V0 (f^2/2 + a3 f^3/6 + a4 f^4/24), [helmholtz_free_energy] returns
    E0 - T0 S0 + F_cmp(V) + F_th(T,V) at every volume V > 0 and temperature
    T > 0 (the domain of the power and of the logarithm), and at the
    reference point (T0, V0) it returns E0 - T0 S0, whatever its pressure
    argument. *)
Theorem helmholtz_free_energy_spec :
  forall (params : gmap string R) (ps : Spec.ParameterSet),
    valid params ps ->
    (forall P T V, 0 < V -> 0 < T ->
       __F_cmp T V params
       = ret (let f := Spec.finite_strain ps V in
              9 * Spec.K0 ps * Spec.V0 ps
              * (f ^ 2 / 2 + Spec.a3 ps * f ^ 3 / 6 + Spec.a4 ps * f ^ 4 / 24))
       /\ helmholtz_free_energy P T V params
          = ret (Spec.E0 ps - Spec.T0 ps * Spec.S0 ps
                 + Spec.compressive_free_energy ps V
                 + Spec.thermal_free_energy ps T V))
    /\ (forall P,
          helmholtz_free_energy P (Spec.T0 ps) (Spec.V0 ps) params
          = ret (Spec.E0 ps - Spec.T0 ps * Spec.S0 ps)).
Proof.
  intros params ps (H & HV0 & HT0 & Hq0).
  assert (HV0' : Spec.V0 ps <> 0) by lra.
  assert (HT0' : Spec.T0 ps <> 0) by lra.
  split.
  - intros P T V HV HT. assert (HV' : V <> 0) by lra. split.
    + apply F_cmp_ret; assumption.
    + apply helmholtz_free_energy_ret; assumption.
  - intros P. rewrite (helmholtz_free_energy_ret _ ps) by assumption.
    f_equal. apply spec_helmholtz_reference; assumption.
Qed.

(** Where the exponent q0 is zero (outside the valid Parameter Sets) the
    free energy is not computed: the division in [__int_aKt_dV] raises. *)
Lemma helmholtz_free_energy_q0_zero params ps P T V :
  holds params ps -> Spec.T0 ps <> 0 -> V <> 0 -> Spec.q0 ps = 0 ->
  helmholtz_free_energy P T V params = raise ZeroDivisionError.
Proof.
  intros H HT0 HV Hq0. unfold helmholtz_free_energy. fields H.
  rewrite (F_cmp_ret _ ps H) by assumption. fields H.
  unfold __F_th. fields H. rewrite truediv_ret by assumption. fields H.
  rewrite (int_aKt_dV_q0_zero _ ps H) by assumption. reflexivity.
Qed.

Lemma valid_scenario : valid (dict_of scenario) scenario.
Proof.
  split; [apply holds_dict_of |]. cbn [Spec.V0 Spec.T0 Spec.q0 scenario].
  repeat split; lra.
Qed.

(** On the scenario (E0 = 0, S0 = 0) the free energy at (300, 1.0e-5) is
    0 - 300 * 0 at the pressures 0 and 1.0e9 alike, and at T = 1000 and
    half the reference volume it is the sum of the three terms. *)
Lemma helmholtz_free_energy_scenario :
  helmholtz_free_energy 0 300 (1 / 100000) (dict_of scenario) = ret (0 - 300 * 0)
  /\ helmholtz_free_energy 1000000000 300 (1 / 100000) (dict_of scenario)
     = ret (0 - 300 * 0)
  /\ helmholtz_free_energy 0 1000 (1 / 200000) (dict_of scenario)
     = ret (0 - 300 * 0 + Spec.compressive_free_energy scenario (1 / 200000)
            + Spec.thermal_free_energy scenario 1000 (1 / 200000)).
Proof.
  pose proof (helmholtz_free_energy_spec (dict_of scenario) scenario
                valid_scenario) as [Hgen Href].
  split; [exact (Href 0) |]. split; [exact (Href 1000000000) |].
  refine (proj2 (Hgen 0 1000 (1 / 200000) _ _)); lra.
Defined.

(** ** Validation of the parameters *)

Section CheckKeys.

Variable params : gmap string R.

Lemma check_keys_present keys :
  Forall (fun k => is_Some (params !! k)) keys ->
  check_keys keys params = ret tt.
Proof.
  induction 1 as [| k keys [v Hk] _ IH]; cbn [check_keys].
  - reflexivity.
  - rewrite Hk. exact IH.
Qed.

(** The loop stops at the first absent key and names it. *)
Lemma check_keys_first_missing (before : list string) k after :
  Forall (fun k' => is_Some (params !! k')) before ->
  params !! k = None ->
  check_keys (before ++ k :: after)%list params
  = raise (KeyError ("params object missing parameter : " ++ k)).
Proof.
  intros Hbefore Hk.
  induction Hbefore as [| k' before [v Hk'] _ IH]; cbn [check_keys app].
  - rewrite Hk. reflexivity.
  - rewrite Hk'. exact IH.
Qed.

Lemma check_keys_some_missing keys :
  Exists (fun k => params !! k = None) keys ->
  exists k, k ∈ keys /\ params !! k = None
            /\ check_keys keys params
               = raise (KeyError ("params object missing parameter : " ++ k)).
Proof.
  induction keys as [| k keys IH]; intros Hex.
  - inversion Hex.
  - cbn [check_keys]. destruct (params !! k) as [v |] eqn:Hk.
    + inversion Hex as [? ? Hhd | ? ? Htl]; subst.
      * congruence.
      * destruct (IH Htl) as (k' & Hin & Hnone & Hraise).
        exists k'. split; [apply list_elem_of_further, Hin |].
        split; assumption.
    + exists k. split; [apply list_elem_of_here |].
      split; [assumption | reflexivity].
Qed.

End CheckKeys.

(** C4: [validate_parameters] looks for the eleven keys V_0, T_0, E_0,
    S_0, K_0, Kprime_0, Kdprime_0, n, Cv, grueneisen_0, q_0 and for nothing
    else.  When all are present it succeeds, whatever the values are (so
    on the dictionary of every Parameter Set).  When one is absent it
    raises a KeyError whose message names an absent required key, the
    first in the order above; so a params that lacks K_0 and has the four
    keys before it gets the KeyError naming K_0. *)
Theorem validate_parameters_checks_presence_only :
  forall params : gmap string R,
    expected_keys
    = ["V_0"; "T_0"; "E_0"; "S_0"; "K_0"; "Kprime_0"; "Kdprime_0"; "n"; "Cv";
       "grueneisen_0"; "q_0"]
    /\ (Forall (fun k => is_Some (params !! k)) expected_keys ->
        validate_parameters params = ret tt)
    /\ (forall ps, validate_parameters (dict_of ps) = ret tt)
    /\ (Exists (fun k => params !! k = None) expected_keys ->
        exists k, k ∈ expected_keys /\ params !! k = None
                  /\ validate_parameters params
                     = raise (KeyError ("params object missing parameter : " ++ k)))
    /\ (forall (before : list string) (k : string) (after : list string),
          expected_keys = (before ++ k :: after)%list ->
          Forall (fun k' => is_Some (params !! k')) before ->
          params !! k = None ->
          validate_parameters params
          = raise (KeyError ("params object missing parameter : " ++ k)))
    /\ (Forall (fun k => is_Some (params !! k)) ["V_0"; "T_0"; "E_0"; "S_0"] ->
        params !! "K_0" = None ->
        validate_parameters params
        = raise (KeyError "params object missing parameter : K_0")).
Proof.
  intros params. unfold validate_parameters.
  split; [reflexivity |].
  split; [apply check_keys_present |].
  split; [intros ps; reflexivity |].
  split; [apply check_keys_some_missing |].
  split.
  - intros before k after ->. apply check_keys_first_missing.
  - intros Hbefore HK0.
    exact (check_keys_first_missing params ["V_0"; "T_0"; "E_0"; "S_0"] "K_0"
             ["Kprime_0"; "Kdprime_0"; "n"; "Cv"; "grueneisen_0"; "q_0"]
             Hbefore HK0).
Qed.

(** The scenario's dictionary passes; with its K_0 deleted the error names
    K_0. *)
Lemma validate_parameters_scenario :
  validate_parameters (dict_of scenario) = ret tt
  /\ validate_parameters (delete "K_0" (dict_of scenario))
     = raise (KeyError "params object missing parameter : K_0").
Proof.
  split.
  - refine (proj1 (proj2 (validate_parameters_checks_presence_only
                            (dict_of scenario))) _).
    repeat constructor; eexists; reflexivity.
  - refine (proj2 (proj2 (proj2 (proj2 (proj2
              (validate_parameters_checks_presence_only
                 (delete "K_0" (dict_of scenario))))))) _ _).
    + repeat constructor; eexists; reflexivity.
    + reflexivity.
Defined.

(** ** The parameter 'n' *)

Section ParameterN.

Variables params1 params2 : gmap string R.
Hypothesis Hagree : forall k, k <> "n" -> params1 !! k = params2 !! k.

Lemma getitem_agree k : k <> "n" -> getitem params1 k = getitem params2 k.
Proof. intros Hk. unfold getitem. rewrite (Hagree k Hk). reflexivity. Qed.

Ltac agree := repeat (rewrite getitem_agree by discriminate).

(** The operations below never read 'n': they agree on the two
    dictionaries even when one of them lacks the key. *)

Lemma finite_strain_agree T V :
  __finite_strain T V params1 = __finite_strain T V params2.
Proof. unfold __finite_strain. agree. reflexivity. Qed.

Lemma int_aKt_dV_agree T V :
  __int_aKt_dV T V params1 = __int_aKt_dV T V params2.
Proof. unfold __int_aKt_dV. agree. reflexivity. Qed.

Lemma F_cmp_agree T V : __F_cmp T V params1 = __F_cmp T V params2.
Proof. unfold __F_cmp. rewrite finite_strain_agree. agree. reflexivity. Qed.

Lemma F_th_agree T V : __F_th T V params1 = __F_th T V params2.
Proof. unfold __F_th. rewrite int_aKt_dV_agree. agree. reflexivity. Qed.

Lemma grueneisen_parameter_agree P T V :
  grueneisen_parameter P T V params1 = grueneisen_parameter P T V params2.
Proof. unfold grueneisen_parameter. agree. reflexivity. Qed.

Lemma heat_capacity_v_agree P T V :
  heat_capacity_v P T V params1 = heat_capacity_v P T V params2.
Proof. unfold heat_capacity_v. agree. reflexivity. Qed.

Lemma entropy_agree P T V : entropy P T V params1 = entropy P T V params2.
Proof. unfold entropy. rewrite int_aKt_dV_agree. agree. reflexivity. Qed.

Lemma helmholtz_free_energy_agree P T V :
  helmholtz_free_energy P T V params1 = helmholtz_free_energy P T V params2.
Proof.
  unfold helmholtz_free_energy. rewrite F_cmp_agree, F_th_agree. agree.
  reflexivity.
Qed.

Lemma gibbs_free_energy_agree P T V :
  gibbs_free_energy P T V params1 = gibbs_free_energy P T V params2.
Proof.
  unfold gibbs_free_energy. rewrite helmholtz_free_energy_agree. reflexivity.
Qed.

Lemma internal_energy_agree P T V :
  internal_energy P T V params1 = internal_energy P T V params2.
Proof.
  unfold internal_energy. rewrite helmholtz_free_energy_agree, entropy_agree.
  reflexivity.
Qed.

(** [pressure] reads 'n' and drops the value: it needs the key in both
    dictionaries, and no more. *)

Hypothesis Hn1 : is_Some (params1 !! "n").
Hypothesis Hn2 : is_Some (params2 !! "n").

Lemma pressure_agree T V : pressure T V params1 = pressure T V params2.
Proof.
  destruct Hn1 as [n1 Hn1'], Hn2 as [n2 Hn2'].
  unfold pressure.
  rewrite (getitem_lookup _ _ _ Hn1'), (getitem_lookup _ _ _ Hn2').
  rewrite finite_strain_agree, grueneisen_parameter_agree. agree.
  reflexivity.
Qed.

(** Without the key, [pressure] raises KeyError('n') once the finite
    strain is computed. *)
Lemma pressure_reads_n (params : gmap string R) V_0 T V :
  params !! "V_0" = Some V_0 -> V <> 0 -> params !! "n" = None ->
  pressure T V params = raise (KeyError "n").
Proof.
  intros HV0 HV Hn. unfold pressure, __finite_strain.
  rewrite (getitem_lookup _ _ _ HV0). cbn [bind ret].
  rewrite truediv_ret by assumption. cbn [bind ret].
  rewrite (getitem_missing _ _ Hn). reflexivity.
Qed.

Lemma _delta_pressure_agree x P T :
  _delta_pressure x (P, T, params1) = _delta_pressure x (P, T, params2).
Proof. unfold _delta_pressure. rewrite pressure_agree. reflexivity. Qed.

Section Solvers.

Variable bracket :
  (R -> R * R * gmap string R -> result R) -> R -> R ->
  R * R * gmap string R -> result (R * R).
Variable brentq :
  (R -> R * R * gmap string R -> result R) -> R -> R ->
  R * R * gmap string R -> result R.
Hypothesis bracket_generic : generic_in_args bracket.
Hypothesis brentq_generic : generic_in_args brentq.

Lemma volume_agree P T :
  volume bracket brentq P T params1 = volume bracket brentq P T params2.
Proof.
  unfold volume. agree.
  destruct (getitem params2 "V_0") as [V_0 | e]; cbn [bind ret];
    [| destruct e; reflexivity].
  rewrite (bracket_generic _ _ _ (P, T, params1) (P, T, params2))
    by (intros x; apply _delta_pressure_agree).
  destruct (except_ValueError _ _) as [sol | e]; cbn [bind ret]; [| reflexivity].
  apply brentq_generic. intros x. apply _delta_pressure_agree.
Qed.

Lemma enthalpy_agree P T V :
  enthalpy bracket brentq P T V params1
  = enthalpy bracket brentq P T V params2.
Proof.
  unfold enthalpy.
  rewrite helmholtz_free_energy_agree, entropy_agree, volume_agree.
  reflexivity.
Qed.

End Solvers.

End ParameterN.

(** C10: the value of 'n' is never used.  For two dictionaries that both
    have the key 'n' and are equal on every other key, and solvers that
    are generic in [args], every public operation gives the same result on
    both: [pressure], [volume], [entropy], [helmholtz_free_energy],
    [internal_energy], [enthalpy], [gibbs_free_energy],
    [grueneisen_parameter], [heat_capacity_v] and the five properties that
    return zero. *)
Theorem parameter_n_is_not_load_bearing :
  forall bracket brentq (params1 params2 : gmap string R) (P T V : R),
    generic_in_args bracket -> generic_in_args brentq ->
    differ_only_in_n params1 params2 ->
    pressure T V params1 = pressure T V params2
    /\ volume bracket brentq P T params1 = volume bracket brentq P T params2
    /\ entropy P T V params1 = entropy P T V params2
    /\ helmholtz_free_energy P T V params1 = helmholtz_free_energy P T V params2
    /\ internal_energy P T V params1 = internal_energy P T V params2
    /\ enthalpy bracket brentq P T V params1 = enthalpy bracket brentq P T V params2
    /\ gibbs_free_energy P T V params1 = gibbs_free_energy P T V params2
    /\ grueneisen_parameter P T V params1 = grueneisen_parameter P T V params2
    /\ heat_capacity_v P T V params1 = heat_capacity_v P T V params2
    /\ isothermal_bulk_modulus P T V params1 = isothermal_bulk_modulus P T V params2
    /\ adiabatic_bulk_modulus P T V params1 = adiabatic_bulk_modulus P T V params2
    /\ shear_modulus P T V params1 = shear_modulus P T V params2
    /\ heat_capacity_p P T V params1 = heat_capacity_p P T V params2
    /\ thermal_expansivity P T V params1 = thermal_expansivity P T V params2.
Proof.
  intros bracket brentq params1 params2 P T V Hb Hq (Hn1 & Hn2 & Hagree).
  split; [apply pressure_agree; assumption |].
  split; [apply volume_agree; assumption |].
  split; [apply entropy_agree; assumption |].
  split; [apply helmholtz_free_energy_agree; assumption |].
  split; [apply internal_energy_agree; assumption |].
  split; [apply enthalpy_agree; assumption |].
  split; [apply gibbs_free_energy_agree; assumption |].
  split; [apply grueneisen_parameter_agree; assumption |].
  split; [apply heat_capacity_v_agree; assumption |].
  repeat split.
Qed.

Lemma bracket_first_interval_generic : generic_in_args bracket_first_interval.
Proof. intros fn x0 x1 args args' _. reflexivity. Qed.

Lemma brentq_midpoint_generic : generic_in_args brentq_midpoint.
Proof. intros fn x0 x1 args args' _. reflexivity. Qed.

Lemma scenario_differs_only_in_n :
  differ_only_in_n (dict_of scenario) (dict_of scenario_two_moles).
Proof.
  split; [eexists; reflexivity |]. split; [eexists; reflexivity |].
  intros k Hk. unfold dict_of. cbn [list_to_map foldr uncurry fst snd
    Spec.V0 Spec.T0 Spec.E0 Spec.S0 Spec.K0 Spec.K0' Spec.K0'' Spec.n Spec.Cv
    Spec.gamma0 Spec.q0 scenario scenario_two_moles].
  rewrite !lookup_insert. repeat case_decide; congruence.
Qed.

(** With the stand-in solvers, on both scenarios and at the same state
    point, [pressure], [volume] and [enthalpy] agree. *)
Lemma parameter_n_scenario :
  pressure 300 (1 / 200000) (dict_of scenario)
  = pressure 300 (1 / 200000) (dict_of scenario_two_moles)
  /\ volume bracket_first_interval brentq_midpoint 1000000000 300 (dict_of scenario)
     = volume bracket_first_interval brentq_midpoint 1000000000 300
         (dict_of scenario_two_moles)
  /\ enthalpy bracket_first_interval brentq_midpoint 1000000000 300 (1 / 200000)
       (dict_of scenario)
     = enthalpy bracket_first_interval brentq_midpoint 1000000000 300 (1 / 200000)
         (dict_of scenario_two_moles).
Proof.
  pose proof (parameter_n_is_not_load_bearing
                bracket_first_interval brentq_midpoint
                (dict_of scenario) (dict_of scenario_two_moles)
                1000000000 300 (1 / 200000)
                bracket_first_interval_generic brentq_midpoint_generic
                scenario_differs_only_in_n) as H.
  split; [exact (proj1 H) |].
  split; [exact (proj1 (proj2 H)) |].
  exact (proj1 (proj2 (proj2 (proj2 (proj2 (proj2 H)))))).
Defined.

(** ** The inversion [volume] *)

Section Inversion.

Variable bracket :
  (R -> R * R * gmap string R -> result R) -> R -> R ->
  R * R * gmap string R -> result (R * R).
Variable brentq :
  (R -> R * R * gmap string R -> result R) -> R -> R ->
  R * R * gmap string R -> result R.

Lemma volume_bracket_ValueError P T params V_0 msg :
  params !! "V_0" = Some V_0 ->
  bracket _delta_pressure V_0 (1 / 100 * V_0) (P, T, params)
  = raise (ValueError msg) ->
  volume bracket brentq P T params = raise (Exception cannot_find_a_volume).
Proof.
  intros HV0 Hb. unfold volume.
  rewrite (getitem_lookup _ _ _ HV0). cbn [bind ret].
  rewrite Hb. reflexivity.
Qed.

Lemma volume_bracket_ret P T params V_0 lo hi :
  params !! "V_0" = Some V_0 ->
  bracket _delta_pressure V_0 (1 / 100 * V_0) (P, T, params) = ret (lo, hi) ->
  volume bracket brentq P T params
  = brentq _delta_pressure lo hi (P, T, params).
Proof.
  intros HV0 Hb. unfold volume.
  rewrite (getitem_lookup _ _ _ HV0). cbn [bind ret].
  rewrite Hb. reflexivity.
Qed.

End Inversion.

(** Only [except Exception] handles an exception of class [Exception], and
    it handles every exception. *)
Lemma catches_Exception_only c msg :
  catches c (Exception msg) = true -> c = cException.
Proof. destruct c; cbn; congruence. Qed.

Lemma catches_everything e : catches cException e = true.
Proof. destruct e; reflexivity. Qed.

(** C3 (as amended): when the bracketing search finds no sign change
    (raises ValueError), [volume] raises an exception of the generic class
    [Exception] with a fixed message.  A caller can catch it, but only with
    [except Exception], which catches every other error as well: the
    failure is told apart by its message, not by its kind. *)
Theorem volume_raises_generic_Exception :
  forall bracket brentq (P T : R) (params : gmap string R) (V_0 : R) msg,
    params !! "V_0" = Some V_0 ->
    bracket _delta_pressure V_0 (1 / 100 * V_0) (P, T, params)
    = raise (ValueError msg) ->
    volume bracket brentq P T params = raise (Exception cannot_find_a_volume)
    /\ catches cException (Exception cannot_find_a_volume) = true
    /\ forall c, catches c (Exception cannot_find_a_volume) = true ->
                 c = cException /\ forall e, catches c e = true.
Proof.
  intros bracket brentq P T params V_0 msg HV0 Hb.
  split; [exact (volume_bracket_ValueError bracket brentq P T params V_0 msg HV0 Hb) |].
  split; [reflexivity |].
  intros c Hc. apply catches_Exception_only in Hc. subst c.
  split; [reflexivity | apply catches_everything].
Qed.

(** On the scenario, with a bracketing search that finds no sign change. *)
Lemma volume_raises_generic_Exception_scenario :
  volume bracket_no_sign_change brentq_midpoint 1000000000 300 (dict_of scenario)
  = raise (Exception cannot_find_a_volume).
Proof.
  exact (proj1 (volume_raises_generic_Exception
                  bracket_no_sign_change brentq_midpoint 1000000000 300
                  (dict_of scenario) (1 / 100000) "no sign change found"
                  eq_refl eq_refl)).
Defined.

(** C3 (as stated) fails: the failure of [volume] after a bracketing
    search without sign change is of the class [Exception] itself, and no
    [except] clause separates it from another failure of the same call,
    such as the KeyError of a params without V_0: whichever class catches
    the one catches the other. *)
Lemma volume_failure_is_not_a_distinct_kind :
  volume bracket_no_sign_change brentq_midpoint 1000000000 300 (dict_of scenario)
  = raise (Exception cannot_find_a_volume)
  /\ class_of (Exception cannot_find_a_volume) = cException
  /\ volume bracket_no_sign_change brentq_midpoint 1000000000 300
       (delete "V_0" (dict_of scenario))
     = raise (KeyError "V_0")
  /\ forall c, catches c (Exception cannot_find_a_volume) = true ->
               catches c (KeyError "V_0") = true.
Proof.
  split; [reflexivity |]. split; [reflexivity |]. split; [reflexivity |].
  intros c Hc. apply catches_Exception_only in Hc. subst c. reflexivity.
Qed.

(** ** Enthalpy and Gibbs free energy *)

(** The stand-in solvers answer with the reference volume. *)
Lemma volume_stand_in params ps P T :
  holds params ps ->
  volume bracket_first_interval brentq_midpoint P T params = ret (Spec.V0 ps).
Proof.
  intros H. unfold volume. fields H.
  unfold bracket_first_interval, brentq_midpoint. cbn [except_ValueError ret bind fst snd].
  f_equal. field.
Qed.

(** C7 (as amended): [enthalpy] takes the volume of its P V term from
    [volume(P, T, params)], not from its volume argument: it returns
    F + T S + P V' when that call returns V' and raises what that call
    raises (F and S being computed at the volume argument).
    [gibbs_free_energy] does not call [volume]: it returns F + P V with the
    volume argument V itself, whatever the solvers are. *)
Theorem enthalpy_inverts_and_gibbs_does_not :
  forall bracket brentq (P T V : R) (params : gmap string R) (F S : R),
    helmholtz_free_energy P T V params = ret F ->
    entropy P T V params = ret S ->
    (forall V', volume bracket brentq P T params = ret V' ->
                enthalpy bracket brentq P T V params = ret (F + T * S + P * V'))
    /\ (forall e, volume bracket brentq P T params = raise e ->
                  enthalpy bracket brentq P T V params = raise e)
    /\ gibbs_free_energy P T V params = ret (F + P * V).
Proof.
  intros bracket brentq P T V params F S HF HS.
  unfold enthalpy, gibbs_free_energy. rewrite HF, HS. cbn [bind ret].
  split; [| split]; [intros V' -> | intros e -> |]; reflexivity.
Qed.

(** On the scenario at P = 1, T = 300 and the volume argument 2.0e-5,
    with the stand-in solvers (which answer 1.0e-5): the P V term of the
    enthalpy is 1 * 1.0e-5, that of the Gibbs free energy is 1 * 2.0e-5. *)
Lemma enthalpy_and_gibbs_scenario :
  enthalpy bracket_first_interval brentq_midpoint 1 300 (2 / 100000)
    (dict_of scenario)
  = ret (Spec.helmholtz_free_energy scenario 300 (2 / 100000)
         + 300 * Spec.entropy scenario 300 (2 / 100000)
         + 1 * (1 / 100000))
  /\ gibbs_free_energy 1 300 (2 / 100000) (dict_of scenario)
     = ret (Spec.helmholtz_free_energy scenario 300 (2 / 100000)
            + 1 * (2 / 100000)).
Proof.
  assert (HF : helmholtz_free_energy 1 300 (2 / 100000) (dict_of scenario)
               = ret (Spec.helmholtz_free_energy scenario 300 (2 / 100000))).
  { apply helmholtz_free_energy_ret; [apply holds_dict_of | ..];
      cbn [Spec.V0 Spec.T0 Spec.q0 scenario]; lra. }
  assert (HS : entropy 1 300 (2 / 100000) (dict_of scenario)
               = ret (Spec.entropy scenario 300 (2 / 100000))).
  { apply entropy_ret; [apply holds_dict_of | ..];
      cbn [Spec.V0 Spec.T0 Spec.q0 scenario]; lra. }
  pose proof (enthalpy_inverts_and_gibbs_does_not
                bracket_first_interval brentq_midpoint 1 300 (2 / 100000)
                (dict_of scenario) _ _ HF HS) as (Hret & _ & HG).
  split; [| exact HG].
  apply Hret. exact (volume_stand_in _ scenario 1 300 (holds_dict_of scenario)).
Defined.

(** C7 (as stated) fails for [gibbs_free_energy]: on the scenario at P = 1,
    T = 300 and the volume argument 2.0e-5, with solvers for which
    [volume(P, T, params)] is 1.0e-5, it returns F + 1 * 2.0e-5, and not
    the F + 1 * 1.0e-5 that a P V term taken from [volume] would give. *)
Lemma gibbs_free_energy_keeps_the_given_volume :
  exists F : R,
    volume bracket_first_interval brentq_midpoint 1 300 (dict_of scenario)
    = ret (1 / 100000)
    /\ gibbs_free_energy 1 300 (2 / 100000) (dict_of scenario)
       = ret (F + 1 * (2 / 100000))
    /\ gibbs_free_energy_via_volume bracket_first_interval brentq_midpoint
         1 300 (2 / 100000) (dict_of scenario)
       = ret (F + 1 * (1 / 100000))
    /\ F + 1 * (2 / 100000) <> F + 1 * (1 / 100000).
Proof.
  exists (Spec.helmholtz_free_energy scenario 300 (2 / 100000)).
  assert (HF : helmholtz_free_energy 1 300 (2 / 100000) (dict_of scenario)
               = ret (Spec.helmholtz_free_energy scenario 300 (2 / 100000))).
  { apply helmholtz_free_energy_ret; [apply holds_dict_of | ..];
      cbn [Spec.V0 Spec.T0 Spec.q0 scenario]; lra. }
  pose proof (volume_stand_in _ scenario 1 300 (holds_dict_of scenario)) as HV.
  cbn [Spec.V0 scenario] in HV.
  split; [exact HV |].
  unfold gibbs_free_energy, gibbs_free_energy_via_volume.
  rewrite HF, HV. cbn [bind ret].
  split; [reflexivity |]. split; [reflexivity |]. lra.
Qed.

(** ** The round trip through [pressure] and [volume] *)

Lemma np_power_pos x y : 0 < np_power x y.
Proof. unfold np_power, Rpower. apply exp_pos. Qed.








(* What holds instead, where the pressure of V is met once in the starting
   bracket, is proved in the last part, once the pressure is known to be
   continuous and, under compression, decreasing in the volume. *)

Lemma pressure_reference params ps :
  holds params ps -> Spec.V0 ps <> 0 ->
  pressure (Spec.T0 ps) (Spec.V0 ps) params = ret 0.
Proof.
  intros H HV0. rewrite (pressure_ret _ ps H) by assumption.
  f_equal. apply spec_pressure_reference, HV0.
Qed.

(** * Further properties of the code *)

(** ** Validation and the eleven fields *)

Lemma check_keys_ret_inv (params : gmap string R) keys :
  check_keys keys params = ret tt ->
  Forall (fun k => is_Some (params !! k)) keys.
Proof.
  induction keys as [| k keys IH]; cbn [check_keys]; intros H.
  - constructor.
  - destruct (params !! k) as [v |] eqn:Hk; [| discriminate].
    constructor; [exists v; exact Hk | apply IH, H].
Qed.

(** A dictionary passes [validate_parameters] exactly when it holds the
    fields of some Parameter Set. *)
Lemma validate_parameters_holds (params : gmap string R) :
  validate_parameters params = ret tt <-> exists ps, holds params ps.
Proof.
  split.
  - intros H. apply check_keys_ret_inv in H. unfold expected_keys in H.
    repeat match goal with
           | H : Forall _ (_ :: _) |- _ =>
               let v := fresh "v" in
               let Hv := fresh "Hv" in
               apply Forall_cons in H as [[v Hv] H]
           end.
    exists {| Spec.V0 := v; Spec.T0 := v0; Spec.E0 := v1; Spec.S0 := v2;
              Spec.K0 := v3; Spec.K0' := v4; Spec.K0'' := v5; Spec.n := v6;
              Spec.Cv := v7; Spec.gamma0 := v8; Spec.q0 := v9 |}.
    unfold holds. apply map_subseteq_spec. intros k x.
    unfold dict_of. cbn [list_to_map foldr uncurry fst snd
      Spec.V0 Spec.T0 Spec.E0 Spec.S0 Spec.K0 Spec.K0' Spec.K0'' Spec.n
      Spec.Cv Spec.gamma0 Spec.q0].
    rewrite !lookup_insert. repeat case_decide; subst;
      rewrite ?lookup_empty; congruence.
  - intros [ps H]. apply check_keys_present. unfold expected_keys.
    repeat (apply List.Forall_cons;
            [cbv beta; unfold is_Some; eexists;
             eapply (lookup_weaken (dict_of ps) params); [reflexivity | exact H] |]).
    apply List.Forall_nil.
Qed.

(** ** Where the methods return and where they raise *)

Section Outcomes.

Variables (params : gmap string R) (ps : Spec.ParameterSet).
Hypothesis Hholds : holds params ps.

Lemma finite_strain_volume_zero T :
  __finite_strain T 0 params = raise ZeroDivisionError.
Proof.
  unfold __finite_strain. fields Hholds. rewrite truediv_zero. reflexivity.
Qed.

Lemma grueneisen_parameter_V0_zero P T V :
  Spec.V0 ps = 0 -> grueneisen_parameter P T V params = raise ZeroDivisionError.
Proof.
  intros HV0. unfold grueneisen_parameter. fields Hholds.
  rewrite HV0, truediv_zero. reflexivity.
Qed.

Lemma pressure_raises T V :
  V = 0 \/ Spec.V0 ps = 0 -> pressure T V params = raise ZeroDivisionError.
Proof.
  intros Hz. unfold pressure. destruct (Req_dec_T V 0) as [-> | HV].
  - rewrite finite_strain_volume_zero. reflexivity.
  - destruct Hz as [HV' | HV0]; [contradiction |].
    rewrite (finite_strain_ret _ ps Hholds) by assumption. fields Hholds.
    rewrite grueneisen_parameter_V0_zero by assumption. reflexivity.
Qed.

Lemma int_aKt_dV_raises T V :
  Spec.q0 ps = 0 \/ Spec.V0 ps = 0 ->
  __int_aKt_dV T V params = raise ZeroDivisionError.
Proof.
  intros Hz. destruct (Req_dec_T (Spec.q0 ps) 0) as [Hq0 | Hq0].
  - apply (int_aKt_dV_q0_zero _ ps Hholds), Hq0.
  - destruct Hz as [Hq0' | HV0]; [contradiction |].
    unfold __int_aKt_dV. fields Hholds.
    rewrite truediv_ret by assumption. fields Hholds.
    rewrite HV0, truediv_zero. reflexivity.
Qed.

Lemma entropy_raises P T V :
  Spec.q0 ps = 0 \/ Spec.V0 ps = 0 \/ Spec.T0 ps = 0 ->
  entropy P T V params = raise ZeroDivisionError.
Proof.
  intros Hz. unfold entropy. fields Hholds.
  destruct (Req_dec_T (Spec.q0 ps) 0) as [Hq0 | Hq0];
    [rewrite int_aKt_dV_raises by (left; assumption); reflexivity |].
  destruct (Req_dec_T (Spec.V0 ps) 0) as [HV0 | HV0];
    [rewrite int_aKt_dV_raises by (right; assumption); reflexivity |].
  destruct Hz as [? | [? | HT0]]; [contradiction | contradiction |].
  rewrite (int_aKt_dV_ret _ ps Hholds) by assumption. fields Hholds.
  rewrite HT0, truediv_zero. reflexivity.
Qed.

Lemma F_th_raises T V :
  Spec.T0 ps = 0 \/ Spec.q0 ps = 0 \/ Spec.V0 ps = 0 ->
  __F_th T V params = raise ZeroDivisionError.
Proof.
  intros Hz. unfold __F_th. fields Hholds.
  destruct (Req_dec_T (Spec.T0 ps) 0) as [HT0 | HT0];
    [rewrite HT0, truediv_zero; reflexivity |].
  destruct Hz as [? | Hz]; [contradiction |].
  rewrite truediv_ret by assumption. fields Hholds.
  rewrite int_aKt_dV_raises by assumption. reflexivity.
Qed.

Lemma helmholtz_free_energy_raises P T V :
  V = 0 \/ Spec.T0 ps = 0 \/ Spec.q0 ps = 0 \/ Spec.V0 ps = 0 ->
  helmholtz_free_energy P T V params = raise ZeroDivisionError.
Proof.
  intros Hz. unfold helmholtz_free_energy. fields Hholds.
  destruct (Req_dec_T V 0) as [-> | HV].
  - unfold __F_cmp. rewrite finite_strain_volume_zero. reflexivity.
  - destruct Hz as [? | Hz]; [contradiction |].
    rewrite (F_cmp_ret _ ps Hholds) by assumption. fields Hholds.
    rewrite F_th_raises by assumption. reflexivity.
Qed.

End Outcomes.

(** X1: on a dictionary that holds the eleven fields (Python floats),
    [pressure] raises ZeroDivisionError when the volume or V_0 is zero and
    returns, without raising, in every other case; where the volume and
    V_0 are both positive what it returns is its closed form. *)
Theorem pressure_returns_or_divides_by_zero :
  forall (params : gmap string R) (ps : Spec.ParameterSet) (T V : R),
    holds params ps ->
    (0 < V /\ 0 < Spec.V0 ps ->
       pressure T V params = ret (Spec.pressure ps T V))
    /\ (V <> 0 /\ Spec.V0 ps <> 0 -> exists p, pressure T V params = ret p)
    /\ (V = 0 \/ Spec.V0 ps = 0 ->
          pressure T V params = raise ZeroDivisionError).
Proof.
  intros params ps T V H. split; [| split].
  - intros [HV HV0]. apply pressure_ret; [assumption | lra | lra].
  - intros [HV HV0]. eexists. apply (pressure_ret _ ps); assumption.
  - apply pressure_raises, H.
Qed.

(** On the scenario: the closed form at half the reference volume, and a
    ZeroDivisionError at the volume zero. *)
Lemma pressure_scenario_volume_zero :
  pressure 300 (1 / 200000) (dict_of scenario)
  = ret (Spec.pressure scenario 300 (1 / 200000))
  /\ pressure 300 0 (dict_of scenario) = raise ZeroDivisionError.
Proof.
  pose proof (pressure_returns_or_divides_by_zero (dict_of scenario) scenario
                300 (1 / 200000) (holds_dict_of scenario)) as H1.
  pose proof (pressure_returns_or_divides_by_zero (dict_of scenario) scenario
                300 0 (holds_dict_of scenario)) as H2.
  split.
  - apply (proj1 H1). cbn [Spec.V0 scenario]. lra.
  - exact (proj2 (proj2 H2) (or_introl eq_refl)).
Defined.

(** X2: on a dictionary that holds the eleven fields (Python floats),
    [entropy] raises ZeroDivisionError when q_0, V_0 or T_0 is zero and
    returns otherwise (it does not divide by the volume);
    [helmholtz_free_energy], [internal_energy] and [gibbs_free_energy]
    raise ZeroDivisionError when moreover the volume may be zero, and
    return otherwise.  Where the ratios V/V0 and T/T0 are positive, what
    they return are S0 + I(V) + Cv ln(T/T0), E0 - T0 S0 + F_cmp + F_th,
    F + T S and F + P V. *)
Theorem energies_return_or_divide_by_zero :
  forall (params : gmap string R) (ps : Spec.ParameterSet) (P T V : R),
    holds params ps ->
    (Spec.q0 ps <> 0 /\ 0 < V / Spec.V0 ps /\ 0 < T / Spec.T0 ps ->
       entropy P T V params = ret (Spec.entropy ps T V)
       /\ helmholtz_free_energy P T V params
          = ret (Spec.helmholtz_free_energy ps T V)
       /\ internal_energy P T V params
          = ret (Spec.helmholtz_free_energy ps T V + T * Spec.entropy ps T V)
       /\ gibbs_free_energy P T V params
          = ret (Spec.helmholtz_free_energy ps T V + P * V))
    /\ (Spec.q0 ps <> 0 /\ Spec.V0 ps <> 0 /\ Spec.T0 ps <> 0 ->
          (exists S, entropy P T V params = ret S)
          /\ (V <> 0 ->
                exists F U G,
                  helmholtz_free_energy P T V params = ret F
                  /\ internal_energy P T V params = ret U
                  /\ gibbs_free_energy P T V params = ret G))
    /\ (Spec.q0 ps = 0 \/ Spec.V0 ps = 0 \/ Spec.T0 ps = 0 ->
          entropy P T V params = raise ZeroDivisionError)
    /\ (V = 0 \/ Spec.q0 ps = 0 \/ Spec.V0 ps = 0 \/ Spec.T0 ps = 0 ->
          helmholtz_free_energy P T V params = raise ZeroDivisionError
          /\ internal_energy P T V params = raise ZeroDivisionError
          /\ gibbs_free_energy P T V params = raise ZeroDivisionError).
Proof.
  intros params ps P T V H.
  assert (Hret : Spec.q0 ps <> 0 -> Spec.V0 ps <> 0 -> Spec.T0 ps <> 0 ->
                 entropy P T V params = ret (Spec.entropy ps T V)
                 /\ (V <> 0 ->
                       helmholtz_free_energy P T V params
                       = ret (Spec.helmholtz_free_energy ps T V)
                       /\ internal_energy P T V params
                          = ret (Spec.helmholtz_free_energy ps T V
                                 + T * Spec.entropy ps T V)
                       /\ gibbs_free_energy P T V params
                          = ret (Spec.helmholtz_free_energy ps T V + P * V))).
  { intros Hq0 HV0 HT0.
    assert (HS : entropy P T V params = ret (Spec.entropy ps T V))
      by (apply entropy_ret; assumption).
    split; [exact HS |]. intros HV.
    assert (HF : helmholtz_free_energy P T V params
                 = ret (Spec.helmholtz_free_energy ps T V))
      by (apply helmholtz_free_energy_ret; assumption).
    unfold internal_energy, gibbs_free_energy. rewrite HF, HS.
    repeat split. }
  split; [| split; [| split]].
  - intros (Hq0 & HV & HT).
    apply Rdiv_pos_nonzero in HV as [HV HV0].
    apply Rdiv_pos_nonzero in HT as [_ HT0].
    destruct (Hret Hq0 HV0 HT0) as [HS HF]. split; [exact HS | exact (HF HV)].
  - intros (Hq0 & HV0 & HT0). destruct (Hret Hq0 HV0 HT0) as [HS HF].
    split; [eexists; exact HS |].
    intros HV. destruct (HF HV) as (HF' & HU & HG).
    do 3 eexists. split; [exact HF' |]. split; [exact HU | exact HG].
  - apply entropy_raises, H.
  - intros Hz.
    assert (HF : helmholtz_free_energy P T V params = raise ZeroDivisionError).
    { apply (helmholtz_free_energy_raises _ ps H). tauto. }
    unfold internal_energy, gibbs_free_energy. rewrite HF. repeat split.
Qed.

(** On the scenario with q0 = 0 the entropy raises; on the scenario it
    returns. *)
Lemma energies_scenarios :
  entropy 0 300 (1 / 100000) (dict_of scenario_q0_zero) = raise ZeroDivisionError
  /\ entropy 0 300 (1 / 200000) (dict_of scenario)
     = ret (Spec.entropy scenario 300 (1 / 200000)).
Proof.
  split.
  - refine (proj1 (proj2 (proj2 (energies_return_or_divide_by_zero
                                   (dict_of scenario_q0_zero) scenario_q0_zero
                                   0 300 (1 / 100000)
                                   (holds_dict_of scenario_q0_zero))))
                  (or_introl eq_refl)).
  - refine (proj1 (proj1 (energies_return_or_divide_by_zero
                            (dict_of scenario) scenario 0 300 (1 / 200000)
                            (holds_dict_of scenario)) _)).
    cbn [Spec.q0 Spec.V0 Spec.T0 scenario]. repeat split; lra.
Defined.

(** X3: validation is enough against missing keys.  On a dictionary that
    passes [validate_parameters], at every pressure, temperature and
    volume, [pressure], [grueneisen_parameter], [heat_capacity_v],
    [entropy], [helmholtz_free_energy], [internal_energy] and
    [gibbs_free_energy] return a number or raise ZeroDivisionError: none
    raises KeyError. *)
Theorem validated_params_raise_no_KeyError :
  forall (params : gmap string R) (P T V : R),
    validate_parameters params = ret tt ->
    number_or_ZeroDivisionError (pressure T V params)
    /\ number_or_ZeroDivisionError (grueneisen_parameter P T V params)
    /\ number_or_ZeroDivisionError (heat_capacity_v P T V params)
    /\ number_or_ZeroDivisionError (entropy P T V params)
    /\ number_or_ZeroDivisionError (helmholtz_free_energy P T V params)
    /\ number_or_ZeroDivisionError (internal_energy P T V params)
    /\ number_or_ZeroDivisionError (gibbs_free_energy P T V params).
Proof.
  intros params P T V Hvalid.
  apply validate_parameters_holds in Hvalid as [ps H].
  destruct (Req_dec_T V 0) as [HV | HV];
  destruct (Req_dec_T (Spec.V0 ps) 0) as [HV0 | HV0];
  destruct (Req_dec_T (Spec.T0 ps) 0) as [HT0 | HT0];
  destruct (Req_dec_T (Spec.q0 ps) 0) as [Hq0 | Hq0];
    unfold internal_energy, gibbs_free_energy, heat_capacity_v;
    rewrite ?(pressure_raises _ ps H) by tauto;
    rewrite ?(pressure_ret _ ps H) by assumption;
    rewrite ?(grueneisen_parameter_V0_zero _ ps H) by assumption;
    rewrite ?(grueneisen_parameter_ret _ ps) by assumption;
    rewrite ?(entropy_raises _ ps H) by tauto;
    rewrite ?(entropy_ret _ ps H) by assumption;
    rewrite ?(helmholtz_free_energy_raises _ ps H) by tauto;
    rewrite ?(helmholtz_free_energy_ret _ ps H) by assumption;
    fields H; cbn [number_or_ZeroDivisionError raise ret bind];
    repeat split.
Qed.

(** The scenario passes validation, so its pressure at the volume zero is
    not a KeyError. *)
Lemma validated_scenario_no_KeyError :
  number_or_ZeroDivisionError (pressure 300 0 (dict_of scenario)).
Proof.
  exact (proj1 (validated_params_raise_no_KeyError
                  (dict_of scenario) 0 300 0 eq_refl)).
Defined.

(** ** The reference state and the heat capacity *)

Lemma spec_entropy_reference ps :
  Spec.V0 ps <> 0 -> Spec.T0 ps <> 0 -> Spec.q0 ps <> 0 ->
  Spec.entropy ps (Spec.T0 ps) (Spec.V0 ps) = Spec.S0 ps.
Proof.
  intros HV0 HT0 Hq0. unfold Spec.entropy.
  rewrite spec_thermal_pressure_integral_reference by assumption.
  replace (Spec.T0 ps / Spec.T0 ps) with 1 by (field; assumption).
  rewrite np_log_one. ring.
Qed.

(** X4: at the reference state (T0, V0) of a valid Parameter Set the
    pressure is 0, the entropy is S0, the internal energy is E0 and the
    Gibbs free energy is E0 - T0 S0 + P V0, whatever the pressure
    argument P is. *)
Theorem reference_state :
  forall (params : gmap string R) (ps : Spec.ParameterSet) (P : R),
    valid params ps ->
    pressure (Spec.T0 ps) (Spec.V0 ps) params = ret 0
    /\ entropy P (Spec.T0 ps) (Spec.V0 ps) params = ret (Spec.S0 ps)
    /\ internal_energy P (Spec.T0 ps) (Spec.V0 ps) params = ret (Spec.E0 ps)
    /\ gibbs_free_energy P (Spec.T0 ps) (Spec.V0 ps) params
       = ret (Spec.E0 ps - Spec.T0 ps * Spec.S0 ps + P * Spec.V0 ps).
Proof.
  intros params ps P (H & HV0 & HT0 & Hq0).
  assert (HV0' : Spec.V0 ps <> 0) by lra.
  assert (HT0' : Spec.T0 ps <> 0) by lra.
  assert (HS : entropy P (Spec.T0 ps) (Spec.V0 ps) params = ret (Spec.S0 ps)).
  { rewrite (entropy_ret _ ps H) by assumption.
    f_equal. apply spec_entropy_reference; assumption. }
  assert (HF : helmholtz_free_energy P (Spec.T0 ps) (Spec.V0 ps) params
               = ret (Spec.E0 ps - Spec.T0 ps * Spec.S0 ps)).
  { rewrite (helmholtz_free_energy_ret _ ps H) by assumption.
    f_equal. apply spec_helmholtz_reference; assumption. }
  split; [apply pressure_reference; assumption |].
  split; [exact HS |].
  unfold internal_energy, gibbs_free_energy. rewrite HF, HS. cbn [bind ret].
  split; [f_equal; ring | reflexivity].
Qed.

(** On the scenario (S0 = 0, E0 = 0) at the pressure 1.0e9. *)
Lemma reference_state_scenario :
  entropy 1000000000 300 (1 / 100000) (dict_of scenario) = ret 0
  /\ internal_energy 1000000000 300 (1 / 100000) (dict_of scenario) = ret 0.
Proof.
  pose proof (reference_state (dict_of scenario) scenario 1000000000
                valid_scenario) as H.
  split; [exact (proj1 (proj2 H)) | exact (proj1 (proj2 (proj2 H)))].
Defined.

(** The internal energy without its logarithms, which cancel between F
    and T S. *)
Lemma spec_internal_energy ps T V :
  Spec.helmholtz_free_energy ps T V + T * Spec.entropy ps T V
  = Spec.E0 ps + Spec.compressive_free_energy ps V
    + Spec.T0 ps * Spec.thermal_pressure_integral ps V
    + Spec.Cv ps * (T - Spec.T0 ps).
Proof.
  unfold Spec.helmholtz_free_energy, Spec.thermal_free_energy, Spec.entropy.
  ring.
Qed.

(** X5: the internal energy is affine in the temperature, with the slope
    that [heat_capacity_v] returns: for a valid Parameter Set, a volume
    V > 0 and any two temperatures T1 > 0 and T2 > 0 (and any pressure
    arguments), U(T2, V) - U(T1, V) = heat_capacity_v * (T2 - T1). *)
Theorem internal_energy_slope_is_heat_capacity_v :
  forall (params : gmap string R) (ps : Spec.ParameterSet)
         (P1 P2 P T1 T2 T V : R),
    valid params ps -> 0 < V -> 0 < T1 -> 0 < T2 ->
    exists U1 U2 C,
      internal_energy P1 T1 V params = ret U1
      /\ internal_energy P2 T2 V params = ret U2
      /\ heat_capacity_v P T V params = ret C
      /\ U2 - U1 = C * (T2 - T1).
Proof.
  intros params ps P1 P2 P T1 T2 T V (H & HV0 & HT0 & Hq0) HV HT1 HT2.
  assert (HV0' : Spec.V0 ps <> 0) by lra.
  assert (HT0' : Spec.T0 ps <> 0) by lra.
  assert (HV' : V <> 0) by lra.
  exists (Spec.helmholtz_free_energy ps T1 V + T1 * Spec.entropy ps T1 V),
         (Spec.helmholtz_free_energy ps T2 V + T2 * Spec.entropy ps T2 V),
         (Spec.Cv ps).
  unfold internal_energy, heat_capacity_v.
  rewrite !(helmholtz_free_energy_ret _ ps H) by assumption.
  rewrite !(entropy_ret _ ps H) by assumption. fields H.
  repeat split. rewrite !spec_internal_energy. ring.
Qed.

(** On the scenario (Cv = 100), between 300 and 1300 at half the
    reference volume. *)
Lemma internal_energy_slope_scenario :
  exists U1 U2 C,
    internal_energy 0 300 (1 / 200000) (dict_of scenario) = ret U1
    /\ internal_energy 0 1300 (1 / 200000) (dict_of scenario) = ret U2
    /\ heat_capacity_v 0 300 (1 / 200000) (dict_of scenario) = ret C
    /\ U2 - U1 = C * (1300 - 300).
Proof.
  apply (internal_energy_slope_is_heat_capacity_v
           (dict_of scenario) scenario 0 0 0 300 1300 300 (1 / 200000)
           valid_scenario); lra.
Defined.

(** ** What escapes from [volume] *)

(** X6: only a ValueError of the bracketing search becomes the
    "Cannot find a volume" Exception.  A params without V_0 gives
    KeyError('V_0'); any other exception of the bracketing search escapes
    as it is; and whatever [brentq] raises, a ValueError included, escapes
    as it is, the call being outside the [try]. *)
Theorem volume_lets_other_errors_through :
  forall bracket brentq (P T : R) (params : gmap string R),
    (params !! "V_0" = None ->
       volume bracket brentq P T params = raise (KeyError "V_0"))
    /\ (forall V_0 e,
          params !! "V_0" = Some V_0 ->
          bracket _delta_pressure V_0 (1 / 100 * V_0) (P, T, params) = raise e ->
          class_of e <> cValueError ->
          volume bracket brentq P T params = raise e)
    /\ (forall V_0 lo hi e,
          params !! "V_0" = Some V_0 ->
          bracket _delta_pressure V_0 (1 / 100 * V_0) (P, T, params)
          = ret (lo, hi) ->
          brentq _delta_pressure lo hi (P, T, params) = raise e ->
          volume bracket brentq P T params = raise e).
Proof.
  intros bracket brentq P T params. split; [| split].
  - intros HV0. unfold volume. rewrite (getitem_missing _ _ HV0). reflexivity.
  - intros V_0 e HV0 Hb He. unfold volume.
    rewrite (getitem_lookup _ _ _ HV0). cbn [bind ret]. rewrite Hb.
    destruct e; cbn [class_of] in He;
      try (contradiction He; reflexivity); reflexivity.
  - intros V_0 lo hi e HV0 Hb Hq.
    rewrite (volume_bracket_ret bracket brentq P T params V_0 lo hi HV0 Hb).
    exact Hq.
Qed.

(** On the scenario, with a root finder that refuses its interval: the
    ValueError is not turned into the Exception. *)
Lemma volume_brentq_ValueError_scenario :
  volume bracket_first_interval brentq_same_sign 0 300 (dict_of scenario)
  = raise (ValueError "f(a) and f(b) must have different signs").
Proof.
  exact (proj2 (proj2 (volume_lets_other_errors_through
                         bracket_first_interval brentq_same_sign 0 300
                         (dict_of scenario)))
           (1 / 100000) _ _ _ eq_refl eq_refl eq_refl).
Defined.

(** ** What [validate_parameters] looks at *)

Lemma check_keys_dom (params1 params2 : gmap string R) keys :
  dom params1 = dom params2 ->
  check_keys keys params1 = check_keys keys params2.
Proof.
  intros Hdom. induction keys as [| k keys IH]; cbn [check_keys]; [reflexivity |].
  destruct (params1 !! k) as [v1 |] eqn:H1, (params2 !! k) as [v2 |] eqn:H2.
  - exact IH.
  - apply not_elem_of_dom in H2. rewrite <- Hdom in H2.
    apply not_elem_of_dom in H2. congruence.
  - apply not_elem_of_dom in H1. rewrite Hdom in H1.
    apply not_elem_of_dom in H1. congruence.
  - reflexivity.
Qed.

(** X8: [validate_parameters] looks at the keys only.  Two dictionaries
    with the same keys get the same outcome, whatever their values are;
    and once a dictionary passes, every dictionary that extends it passes
    too (further keys are not refused). *)
Theorem validate_parameters_looks_at_keys_only :
  forall params1 params2 : gmap string R,
    (dom params1 = dom params2 ->
       validate_parameters params1 = validate_parameters params2)
    /\ (params1 ⊆ params2 ->
        validate_parameters params1 = ret tt ->
        validate_parameters params2 = ret tt).
Proof.
  intros params1 params2. split.
  - apply check_keys_dom.
  - intros Hsub H1. apply validate_parameters_holds in H1 as [ps H1].
    apply validate_parameters_holds. exists ps.
    unfold holds in *. etransitivity; eassumption.
Qed.

(** The scenario with a negative bulk modulus set, and with a further
    key, still passes. *)
Lemma validate_parameters_keys_scenario :
  validate_parameters (<["K_0" := -1]> (dict_of scenario))
  = validate_parameters (dict_of scenario)
  /\ validate_parameters (<["molar_mass" := 1 / 10]> (dict_of scenario)) = ret tt.
Proof.
  split.
  - refine (proj1 (validate_parameters_looks_at_keys_only
                     (<["K_0" := -1]> (dict_of scenario)) (dict_of scenario)) _).
    rewrite dom_insert_L.
    assert (Hin : "K_0" ∈ dom (dict_of scenario))
      by (apply elem_of_dom; eexists; reflexivity).
    set_solver.
  - refine (proj2 (validate_parameters_looks_at_keys_only
                     (dict_of scenario)
                     (<["molar_mass" := 1 / 10]> (dict_of scenario))) _ eq_refl).
    apply insert_subseteq. reflexivity.
Defined.

(** ** The fields each method reads *)

Lemma getitem_same (params1 params2 : gmap string R) k :
  params1 !! k = params2 !! k -> getitem params1 k = getitem params2 k.
Proof. intros H. unfold getitem. rewrite H. reflexivity. Qed.

Ltac is_read :=
  repeat first [apply list_elem_of_here | apply list_elem_of_further].

(** X9: the fields each method depends on.  Two dictionaries give the
    same [grueneisen_parameter] when they agree on grueneisen_0, V_0 and
    q_0; the same [heat_capacity_v] when they agree on Cv; the same
    [entropy] when they agree on S_0, Cv, grueneisen_0, q_0, V_0 and T_0
    (the elastic fields K_0, Kprime_0, Kdprime_0 play no part); and the
    same [pressure], and with solvers generic in [args] the same [volume],
    when they agree on every required key but E_0 and S_0 (the energy and
    entropy offsets play no part).  This holds for absent keys too: the
    same KeyError is raised. *)
Theorem fields_read_by_each_method :
  forall (params1 params2 : gmap string R) (P T V : R),
    ((forall k, k ∈ ["grueneisen_0"; "V_0"; "q_0"] ->
                params1 !! k = params2 !! k) ->
     grueneisen_parameter P T V params1 = grueneisen_parameter P T V params2)
    /\ (params1 !! "Cv" = params2 !! "Cv" ->
        heat_capacity_v P T V params1 = heat_capacity_v P T V params2)
    /\ ((forall k, k ∈ ["S_0"; "Cv"; "grueneisen_0"; "q_0"; "V_0"; "T_0"] ->
                   params1 !! k = params2 !! k) ->
        entropy P T V params1 = entropy P T V params2)
    /\ ((forall k, k ∈ ["V_0"; "n"; "K_0"; "Kprime_0"; "Kdprime_0"; "Cv";
                        "T_0"; "grueneisen_0"; "q_0"] ->
                   params1 !! k = params2 !! k) ->
        pressure T V params1 = pressure T V params2
        /\ forall bracket brentq,
             generic_in_args bracket -> generic_in_args brentq ->
             volume bracket brentq P T params1
             = volume bracket brentq P T params2).
Proof.
  intros params1 params2 P T V. split; [| split; [| split]].
  - intros H. unfold grueneisen_parameter.
    rewrite !(getitem_same params1 params2) by (apply H; is_read).
    reflexivity.
  - intros H. unfold heat_capacity_v. apply getitem_same, H.
  - intros H. unfold entropy, __int_aKt_dV.
    rewrite !(getitem_same params1 params2) by (apply H; is_read).
    reflexivity.
  - intros H.
    assert (HP : forall T' V', pressure T' V' params1 = pressure T' V' params2).
    { intros T' V'. unfold pressure, __finite_strain, grueneisen_parameter.
      rewrite !(getitem_same params1 params2) by (apply H; is_read).
      reflexivity. }
    split; [apply HP |].
    intros bracket brentq Hb Hq.
    assert (HD : forall x, _delta_pressure x (P, T, params1)
                           = _delta_pressure x (P, T, params2))
      by (intros x; unfold _delta_pressure; rewrite HP; reflexivity).
    unfold volume.
    rewrite (getitem_same params1 params2 "V_0") by (apply H; is_read).
    destruct (getitem params2 "V_0") as [V_0 | e]; cbn [bind ret];
      [| destruct e; reflexivity].
    rewrite (Hb _ _ _ (P, T, params1) (P, T, params2) HD).
    destruct (except_ValueError _ _) as [sol | e]; cbn [bind ret]; [| reflexivity].
    apply Hq, HD.
Qed.

(** The scenario with its offsets E_0 and S_0 changed has the same
    pressure; with its bulk modulus changed it has the same entropy. *)
Lemma fields_read_scenario :
  pressure 300 (1 / 200000)
    (<["E_0" := 5]> (<["S_0" := 7]> (dict_of scenario)))
  = pressure 300 (1 / 200000) (dict_of scenario)
  /\ entropy 0 300 (1 / 200000) (<["K_0" := 1]> (dict_of scenario))
     = entropy 0 300 (1 / 200000) (dict_of scenario).
Proof.
  split.
  - refine (proj1 (proj2 (proj2 (proj2 (fields_read_by_each_method
              (<["E_0" := 5]> (<["S_0" := 7]> (dict_of scenario)))
              (dict_of scenario) 0 300 (1 / 200000)))) _)).
    intros k Hk.
    repeat (apply elem_of_cons in Hk; destruct Hk as [-> | Hk];
            [reflexivity |]).
    inversion Hk.
  - refine (proj1 (proj2 (proj2 (fields_read_by_each_method
              (<["K_0" := 1]> (dict_of scenario))
              (dict_of scenario) 0 300 (1 / 200000)))) _).
    intros k Hk.
    repeat (apply elem_of_cons in Hk; destruct Hk as [-> | Hk];
            [reflexivity |]).
    inversion Hk.
Defined.

(** ** The pressure and the entropy as derivatives of the free energy *)

(** The rules of differentiation, on functions written as lambdas. *)
Section Rules.

Variables (f g : R -> R) (x lf lg : R).
Hypothesis Hf : derivable_pt_lim f x lf.
Hypothesis Hg : derivable_pt_lim g x lg.

Lemma dlim_plus : derivable_pt_lim (fun v => f v + g v) x (lf + lg).
Proof. exact (derivable_pt_lim_plus f g x lf lg Hf Hg). Qed.
Lemma dlim_minus : derivable_pt_lim (fun v => f v - g v) x (lf - lg).
Proof. exact (derivable_pt_lim_minus f g x lf lg Hf Hg). Qed.
Lemma dlim_mult : derivable_pt_lim (fun v => f v * g v) x (lf * g x + f x * lg).
Proof. exact (derivable_pt_lim_mult f g x lf lg Hf Hg). Qed.
Lemma dlim_opp : derivable_pt_lim (fun v => - f v) x (- lf).
Proof. exact (derivable_pt_lim_opp f x lf Hf). Qed.
Lemma dlim_div :
  g x <> 0 ->
  derivable_pt_lim (fun v => f v / g v) x ((lf * g x - lg * f x) / Rsqr (g x)).
Proof. intros H. exact (derivable_pt_lim_div f g x lf lg Hf Hg H). Qed.
Lemma dlim_pow_ n :
  derivable_pt_lim (fun v => f v ^ n) x (INR n * f x ^ pred n * lf).
Proof.
  exact (derivable_pt_lim_comp f (fun y => y ^ n) x lf _ Hf
           (derivable_pt_lim_pow (f x) n)).
Qed.
Lemma dlim_Rpower_ y :
  0 < f x ->
  derivable_pt_lim (fun v => Rpower (f v) y) x (y * Rpower (f x) (y - 1) * lf).
Proof.
  intros H.
  exact (derivable_pt_lim_comp f (fun z => Rpower z y) x lf _ Hf
           (derivable_pt_lim_power (f x) y H)).
Qed.
Lemma dlim_ln :
  0 < f x -> derivable_pt_lim (fun v => ln (f v)) x (/ f x * lf).
Proof.
  intros H.
  exact (derivable_pt_lim_comp f ln x lf _ Hf (derivable_pt_lim_ln (f x) H)).
Qed.
Lemma dlim_eq l : lf = l -> derivable_pt_lim f x l.
Proof. intros <-. exact Hf. Qed.
End Rules.

Lemma dlim_pow f n x lf :
  derivable_pt_lim f x lf ->
  derivable_pt_lim (fun v => f v ^ n) x (INR n * f x ^ pred n * lf).
Proof. intros H. apply dlim_pow_, H. Qed.
Lemma dlim_Rpower f y x lf :
  derivable_pt_lim f x lf -> 0 < f x ->
  derivable_pt_lim (fun v => Rpower (f v) y) x (y * Rpower (f x) (y - 1) * lf).
Proof. intros H H0. apply dlim_Rpower_; assumption. Qed.

Lemma dlim_const c x : derivable_pt_lim (fun _ => c) x 0.
Proof. exact (derivable_pt_lim_const c x). Qed.
Lemma dlim_id x : derivable_pt_lim (fun v => v) x 1.
Proof. exact (derivable_pt_lim_id x). Qed.

(** Differentiates a function built from constants, the variable, the
    four operations, powers, [Rpower] with a constant exponent and [ln];
    the side conditions (a divisor that is not zero, a positive base or
    argument) are left as goals. *)
Ltac derive :=
  lazymatch goal with
  | |- derivable_pt_lim (fun _ => ?c) _ _ => apply dlim_const
  | |- derivable_pt_lim (fun v => v) _ _ => apply dlim_id
  | |- derivable_pt_lim (fun v => @?f v + @?g v) ?x _ =>
      eapply (dlim_plus f g x); derive
  | |- derivable_pt_lim (fun v => @?f v - @?g v) ?x _ =>
      eapply (dlim_minus f g x); derive
  | |- derivable_pt_lim (fun v => @?f v * @?g v) ?x _ =>
      eapply (dlim_mult f g x); derive
  | |- derivable_pt_lim (fun v => @?f v / @?g v) ?x _ =>
      eapply (dlim_div f g x); [derive | derive | cbv beta]
  | |- derivable_pt_lim (fun v => - @?f v) ?x _ =>
      eapply (dlim_opp f x); derive
  | |- derivable_pt_lim (fun v => @?f v ^ ?n) ?x _ =>
      eapply (dlim_pow f n x); derive
  | |- derivable_pt_lim (fun v => Rpower (@?f v) ?y) ?x _ =>
      eapply (dlim_Rpower f y x); [derive | cbv beta]
  | |- derivable_pt_lim (fun v => ln (@?f v)) ?x _ =>
      eapply (dlim_ln f x); [derive | cbv beta]
  end.

Lemma Rpower_minus_one u a : 0 < u -> Rpower u (a - 1) = Rpower u a / u.
Proof.
  intros H. unfold Rminus. rewrite Rpower_plus, Rpower_Ropp, Rpower_1 by assumption.
  reflexivity.
Qed.

Lemma Rpower_two_thirds_five_halves u :
  0 < u -> Rpower (Rpower u (2 / 3)) (5 / 2) = u * Rpower u (2 / 3).
Proof.
  intros H. rewrite Rpower_mult.
  replace (2 / 3 * (5 / 2)) with (1 + 2 / 3) by field.
  rewrite Rpower_plus, Rpower_1 by assumption. reflexivity.
Qed.

(** The formulas: P = - dF/dV and S = - dF/dT. *)
Lemma spec_pressure_is_minus_dF_dV ps T V :
  0 < Spec.V0 ps -> Spec.q0 ps <> 0 -> 0 < V ->
  derivable_pt_lim (fun v => Spec.helmholtz_free_energy ps T v) V
    (- Spec.pressure ps T V).
Proof.
  intros HV0 Hq0 HV.
  assert (Hu : 0 < Spec.V0 ps / V) by (apply Rdiv_lt_0_compat; lra).
  assert (Hw : 0 < V / Spec.V0 ps) by (apply Rdiv_lt_0_compat; lra).
  unfold Spec.helmholtz_free_energy, Spec.compressive_free_energy,
    Spec.thermal_free_energy, Spec.thermal_pressure_integral,
    Spec.finite_strain, Spec.pressure, Spec.grueneisen_parameter, np_power, np_log.
  cbv zeta.
  eapply dlim_eq.
  - derive; try lra; try assumption.
  - cbv beta. unfold Spec.finite_strain, np_power.
    replace (1 + 2 * (1 / 2 * (Rpower (Spec.V0 ps / V) (2 / 3) - 1)))
      with (Rpower (Spec.V0 ps / V) (2 / 3)) by field.
    rewrite Rpower_two_thirds_five_halves by assumption.
    rewrite !Rpower_minus_one by assumption.
    unfold Rsqr. cbn [pred INR].
    set (x := Rpower (Spec.V0 ps / V) (2 / 3)).
    set (y := Rpower (V / Spec.V0 ps) (Spec.q0 ps)).
    field. repeat split; lra.
Qed.

Lemma spec_entropy_is_minus_dF_dT ps T V :
  0 < Spec.T0 ps -> 0 < T ->
  derivable_pt_lim (fun t => Spec.helmholtz_free_energy ps t V) T
    (- Spec.entropy ps T V).
Proof.
  intros HT0 HT.
  assert (Hu : 0 < T / Spec.T0 ps) by (apply Rdiv_lt_0_compat; lra).
  unfold Spec.helmholtz_free_energy, Spec.thermal_free_energy, Spec.entropy,
    np_log.
  eapply dlim_eq.
  - derive; try lra; try assumption.
  - cbv beta. unfold Rsqr. field. lra.
Qed.


(** X10: the pressure is minus the volume derivative of the Helmholtz free
    energy.  For a valid Parameter Set, any temperature T > 0 and any
    volume V > 0, the number [helmholtz_free_energy] returns, as a
    function of its volume argument, is differentiable at V, and its
    derivative there is minus the number [pressure(T, V, params)]
    returns. *)
Theorem pressure_is_minus_dF_dV :
  forall (params : gmap string R) (ps : Spec.ParameterSet) (P T V : R),
    valid params ps -> 0 < T -> 0 < V ->
    derivable_pt_lim
      (fun v => returned (helmholtz_free_energy P T v params)) V
      (- returned (pressure T V params)).
Proof.
  intros params ps P T V (H & HV0 & HT0 & Hq0) HT HV.
  rewrite (pressure_ret _ ps H) by lra. cbn [returned ret].
  apply (derivable_pt_lim_locally_ext
           (fun v => Spec.helmholtz_free_energy ps T v) _ V (V / 2) (2 * V)).
  - lra.
  - intros z Hz. rewrite (helmholtz_free_energy_ret _ ps H) by lra.
    reflexivity.
  - apply spec_pressure_is_minus_dF_dV; assumption.
Qed.

(** On the scenario at T = 1000 and half the reference volume. *)
Lemma pressure_is_minus_dF_dV_scenario :
  derivable_pt_lim
    (fun v => returned (helmholtz_free_energy 0 1000 v (dict_of scenario)))
    (1 / 200000)
    (- returned (pressure 1000 (1 / 200000) (dict_of scenario))).
Proof.
  apply (pressure_is_minus_dF_dV (dict_of scenario) scenario 0 1000
           (1 / 200000) valid_scenario); lra.
Defined.

(** X11: the entropy is minus the temperature derivative of the Helmholtz
    free energy.  For a valid Parameter Set, a volume V > 0 and any
    temperature T > 0, the number [helmholtz_free_energy] returns, as a
    function of its temperature argument, is differentiable at T, and its
    derivative there is minus the number [entropy] returns. *)
Theorem entropy_is_minus_dF_dT :
  forall (params : gmap string R) (ps : Spec.ParameterSet) (P T V : R),
    valid params ps -> 0 < V -> 0 < T ->
    derivable_pt_lim
      (fun t => returned (helmholtz_free_energy P t V params)) T
      (- returned (entropy P T V params)).
Proof.
  intros params ps P T V (H & HV0 & HT0 & Hq0) HV HT.
  rewrite (entropy_ret _ ps H) by lra. cbn [returned ret].
  apply (derivable_pt_lim_ext (fun t => Spec.helmholtz_free_energy ps t V)).
  - intros t. rewrite (helmholtz_free_energy_ret _ ps H) by lra. reflexivity.
  - apply spec_entropy_is_minus_dF_dT; assumption.
Qed.

(** On the scenario at T = 1000 and half the reference volume. *)
Lemma entropy_is_minus_dF_dT_scenario :
  derivable_pt_lim
    (fun t => returned (helmholtz_free_energy 0 t (1 / 200000) (dict_of scenario)))
    1000
    (- returned (entropy 0 1000 (1 / 200000) (dict_of scenario))).
Proof.
  apply (entropy_is_minus_dF_dT (dict_of scenario) scenario 0 1000
           (1 / 200000) valid_scenario); lra.
Defined.

(** ** The pressure under compression *)

Lemma Rpower_antitone a b e :
  0 < a <= b -> e <= 0 -> Rpower b e <= Rpower a e.
Proof.
  intros [Ha Hab] He.
  remember (- e) as m eqn:Em.
  replace e with (- m) by lra.
  rewrite (Rpower_Ropp b m), (Rpower_Ropp a m).
  apply Rinv_le_contravar.
  - unfold Rpower. apply exp_pos.
  - apply Rle_Rpower_l; lra.
Qed.

Section Compression.

Variable ps : Spec.ParameterSet.
Hypothesis HV0 : 0 < Spec.V0 ps.
Hypothesis HK0 : 0 < Spec.K0 ps.
Hypothesis Ha3 : 0 <= Spec.a3 ps.
Hypothesis Ha4 : 0 <= Spec.a4 ps.

Lemma spec_finite_strain_compression V1 V2 :
  0 < V1 -> V1 < V2 -> V2 <= Spec.V0 ps ->
  0 <= Spec.finite_strain ps V2 < Spec.finite_strain ps V1.
Proof.
  intros H1 H12 H2.
  assert (Hu2 : 1 <= Spec.V0 ps / V2).
  { apply (Rmult_le_reg_r V2); [lra |]. field_simplify; lra. }
  assert (Hu12 : Spec.V0 ps / V2 < Spec.V0 ps / V1).
  { unfold Rdiv. apply Rmult_lt_compat_l; [lra |].
    apply Rinv_lt_contravar; [nra | lra]. }
  assert (Hx2 : 1 <= Rpower (Spec.V0 ps / V2) (2 / 3)).
  { rewrite <- (np_power_one (2 / 3)) at 1. unfold np_power.
    apply Rle_Rpower_l; lra. }
  assert (Hx12 : Rpower (Spec.V0 ps / V2) (2 / 3)
                 < Rpower (Spec.V0 ps / V1) (2 / 3))
    by (apply Rlt_Rpower_l; lra).
  unfold Spec.finite_strain, np_power. lra.
Qed.

Lemma spec_cold_pressure_decreasing f1 f2 :
  0 <= f2 < f1 ->
  3 * Spec.K0 ps * np_power (1 + 2 * f2) (5 / 2)
    * (f2 + Spec.a3 ps * f2 ^ 2 / 2 + Spec.a4 ps * f2 ^ 3 / 6)
  < 3 * Spec.K0 ps * np_power (1 + 2 * f1) (5 / 2)
    * (f1 + Spec.a3 ps * f1 ^ 2 / 2 + Spec.a4 ps * f1 ^ 3 / 6).
Proof.
  intros [Hf2 Hf12].
  assert (HA : 0 < np_power (1 + 2 * f2) (5 / 2) < np_power (1 + 2 * f1) (5 / 2)).
  { split; [apply np_power_pos |]. unfold np_power. apply Rlt_Rpower_l; lra. }
  set (A1 := np_power (1 + 2 * f1) (5 / 2)) in *.
  set (A2 := np_power (1 + 2 * f2) (5 / 2)) in *.
  assert (Hsq : f2 ^ 2 <= f1 ^ 2) by nra.
  assert (Hcu : f2 ^ 3 <= f1 ^ 3).
  { simpl. assert (0 <= f2 * f2) by nra. nra. }
  assert (HB2 : 0 <= f2 + Spec.a3 ps * f2 ^ 2 / 2 + Spec.a4 ps * f2 ^ 3 / 6).
  { assert (0 <= f2 ^ 2) by (simpl; nra).
    assert (0 <= f2 ^ 3) by (simpl; assert (0 <= f2 * f2) by nra; nra). nra. }
  assert (HB : f2 + Spec.a3 ps * f2 ^ 2 / 2 + Spec.a4 ps * f2 ^ 3 / 6
               < f1 + Spec.a3 ps * f1 ^ 2 / 2 + Spec.a4 ps * f1 ^ 3 / 6) by nra.
  set (B1 := f1 + Spec.a3 ps * f1 ^ 2 / 2 + Spec.a4 ps * f1 ^ 3 / 6) in *.
  set (B2 := f2 + Spec.a3 ps * f2 ^ 2 / 2 + Spec.a4 ps * f2 ^ 3 / 6) in *.
  assert (A2 * B2 < A1 * B1) by nra.
  nra.
Qed.

Lemma spec_thermal_pressure_nonincreasing T V1 V2 :
  0 <= Spec.Cv ps * Spec.gamma0 ps * (T - Spec.T0 ps) -> Spec.q0 ps <= 1 ->
  0 < V1 -> V1 < V2 ->
  Spec.Cv ps * (T - Spec.T0 ps) * Spec.grueneisen_parameter ps V2 / V2
  <= Spec.Cv ps * (T - Spec.T0 ps) * Spec.grueneisen_parameter ps V1 / V1.
Proof.
  intros Hc Hq H1 H12.
  assert (Hw1 : 0 < V1 / Spec.V0 ps) by (apply Rdiv_lt_0_compat; lra).
  assert (Hw2 : 0 < V2 / Spec.V0 ps) by (apply Rdiv_lt_0_compat; lra).
  assert (Hw12 : V1 / Spec.V0 ps <= V2 / Spec.V0 ps).
  { unfold Rdiv. apply Rmult_le_compat_r; [| lra].
    apply Rlt_le, Rinv_0_lt_compat, HV0. }
  pose proof (Rpower_antitone _ _ (Spec.q0 ps - 1) (conj Hw1 Hw12)
                ltac:(lra)) as Hanti.
  rewrite !Rpower_minus_one in Hanti by assumption.
  unfold Spec.grueneisen_parameter, np_power.
  set (y1 := Rpower (V1 / Spec.V0 ps) (Spec.q0 ps)) in *.
  set (y2 := Rpower (V2 / Spec.V0 ps) (Spec.q0 ps)) in *.
  assert (Hh : y2 / V2 <= y1 / V1).
  { apply (Rmult_le_reg_r (Spec.V0 ps)); [lra |].
    replace (y2 / V2 * Spec.V0 ps) with (y2 / (V2 / Spec.V0 ps)) by (field; lra).
    replace (y1 / V1 * Spec.V0 ps) with (y1 / (V1 / Spec.V0 ps)) by (field; lra).
    exact Hanti. }
  replace (Spec.Cv ps * (T - Spec.T0 ps) * (Spec.gamma0 ps * y2) / V2)
    with (Spec.Cv ps * Spec.gamma0 ps * (T - Spec.T0 ps) * (y2 / V2))
    by (field; lra).
  replace (Spec.Cv ps * (T - Spec.T0 ps) * (Spec.gamma0 ps * y1) / V1)
    with (Spec.Cv ps * Spec.gamma0 ps * (T - Spec.T0 ps) * (y1 / V1))
    by (field; lra).
  apply Rmult_le_compat_l; assumption.
Qed.

Lemma spec_pressure_decreasing T V1 V2 :
  0 <= Spec.Cv ps * Spec.gamma0 ps * (T - Spec.T0 ps) -> Spec.q0 ps <= 1 ->
  0 < V1 -> V1 < V2 -> V2 <= Spec.V0 ps ->
  Spec.pressure ps T V2 < Spec.pressure ps T V1.
Proof.
  intros Hc Hq H1 H12 H2. unfold Spec.pressure. cbv zeta.
  pose proof (spec_cold_pressure_decreasing _ _
                (spec_finite_strain_compression V1 V2 H1 H12 H2)).
  pose proof (spec_thermal_pressure_nonincreasing T V1 V2 Hc Hq H1 H12).
  lra.
Qed.

End Compression.

(** X12: under compression the pressure falls as the volume grows.  On a
    dictionary holding a Parameter Set with V0 > 0, K0 > 0, a3 >= 0 (that
    is K0' >= 4), a4 >= 0, q0 <= 1 and Cv gamma0 (T - T0) >= 0, [pressure]
    is strictly decreasing in the volume on (0, V0]; so two volumes of
    that range with the same pressure are the same volume. *)
Theorem pressure_decreasing_under_compression :
  forall (params : gmap string R) (ps : Spec.ParameterSet) (T : R),
    holds params ps ->
    0 < Spec.V0 ps -> 0 < Spec.K0 ps ->
    0 <= Spec.a3 ps -> 0 <= Spec.a4 ps ->
    0 <= Spec.Cv ps * Spec.gamma0 ps * (T - Spec.T0 ps) -> Spec.q0 ps <= 1 ->
    (forall V1 V2,
       0 < V1 -> V1 < V2 -> V2 <= Spec.V0 ps ->
       exists p1 p2,
         pressure T V1 params = ret p1 /\ pressure T V2 params = ret p2
         /\ p2 < p1)
    /\ (forall V1 V2,
          0 < V1 <= Spec.V0 ps -> 0 < V2 <= Spec.V0 ps ->
          pressure T V1 params = pressure T V2 params -> V1 = V2).
Proof.
  intros params ps T H HV0 HK0 Ha3 Ha4 Hc Hq.
  assert (Hdec : forall V1 V2,
             0 < V1 -> V1 < V2 -> V2 <= Spec.V0 ps ->
             Spec.pressure ps T V2 < Spec.pressure ps T V1)
    by (intros; apply spec_pressure_decreasing; assumption).
  split.
  - intros V1 V2 H1 H12 H2.
    exists (Spec.pressure ps T V1), (Spec.pressure ps T V2).
    rewrite !(pressure_ret _ ps H) by lra.
    split; [reflexivity |]. split; [reflexivity |]. apply Hdec; assumption.
  - intros V1 V2 [H1 H1'] [H2 H2'] Heq.
    rewrite !(pressure_ret _ ps H) in Heq by lra.
    unfold ret in Heq. injection Heq as Heq.
    destruct (Rtotal_order V1 V2) as [Hlt | [Heq' | Hgt]]; [| exact Heq' |].
    + pose proof (Hdec V1 V2 H1 Hlt H2'). lra.
    + pose proof (Hdec V2 V1 H2 Hgt H1'). lra.
Qed.

(** On the scenario with K0'' = 0 at T = 1000: the pressure at half the
    reference volume is above the pressure at the reference volume. *)
Lemma pressure_decreasing_scenario :
  exists p1 p2,
    pressure 1000 (1 / 200000) (dict_of scenario_a4_positive) = ret p1
    /\ pressure 1000 (1 / 100000) (dict_of scenario_a4_positive) = ret p2
    /\ p2 < p1.
Proof.
  refine (proj1 (pressure_decreasing_under_compression
                   (dict_of scenario_a4_positive) scenario_a4_positive 1000
                   (holds_dict_of scenario_a4_positive) _ _ _ _ _ _)
            (1 / 200000) (1 / 100000) _ _ _);
    unfold Spec.a3, Spec.a4;
    cbn [Spec.V0 Spec.T0 Spec.K0 Spec.K0' Spec.K0'' Spec.Cv Spec.gamma0
         Spec.q0 scenario_a4_positive]; lra.
Defined.

(** ** The Grueneisen parameter along the volume *)

(** X13: with V0 > 0, gamma0 > 0 and q0 > 0, [grueneisen_parameter] is
    positive and strictly increasing in the volume on V > 0 (it falls
    under compression). *)
Theorem grueneisen_parameter_increasing :
  forall (params : gmap string R) (ps : Spec.ParameterSet)
         (P1 T1 P2 T2 V1 V2 : R),
    holds params ps ->
    0 < Spec.V0 ps -> 0 < Spec.gamma0 ps -> 0 < Spec.q0 ps ->
    0 < V1 -> V1 < V2 ->
    exists g1 g2,
      grueneisen_parameter P1 T1 V1 params = ret g1
      /\ grueneisen_parameter P2 T2 V2 params = ret g2
      /\ 0 < g1 < g2.
Proof.
  intros params ps P1 T1 P2 T2 V1 V2 H HV0 Hg Hq H1 H12.
  exists (Spec.grueneisen_parameter ps V1), (Spec.grueneisen_parameter ps V2).
  rewrite !(grueneisen_parameter_ret _ ps) by (assumption || lra).
  split; [reflexivity |]. split; [reflexivity |].
  unfold Spec.grueneisen_parameter.
  assert (Hw1 : 0 < V1 / Spec.V0 ps) by (apply Rdiv_lt_0_compat; lra).
  assert (Hw12 : V1 / Spec.V0 ps < V2 / Spec.V0 ps).
  { unfold Rdiv. apply Rmult_lt_compat_r; [| lra].
    apply Rinv_0_lt_compat, HV0. }
  pose proof (np_power_pos (V1 / Spec.V0 ps) (Spec.q0 ps)) as Hpos.
  assert (Hlt : np_power (V1 / Spec.V0 ps) (Spec.q0 ps)
                < np_power (V2 / Spec.V0 ps) (Spec.q0 ps))
    by (unfold np_power; apply Rlt_Rpower_l; lra).
  split; nra.
Qed.

(** On the scenario (gamma0 = 1.5, q0 = 1), from half the reference
    volume to the reference volume. *)
Lemma grueneisen_parameter_increasing_scenario :
  exists g1 g2,
    grueneisen_parameter 0 300 (1 / 200000) (dict_of scenario) = ret g1
    /\ grueneisen_parameter 0 300 (1 / 100000) (dict_of scenario) = ret g2
    /\ 0 < g1 < g2.
Proof.
  apply (grueneisen_parameter_increasing (dict_of scenario) scenario
           0 300 0 300 (1 / 200000) (1 / 100000) (holds_dict_of scenario));
    cbn [Spec.V0 Spec.gamma0 Spec.q0 scenario]; lra.
Defined.

(** ** The entropy along temperature and volume *)

Lemma Rpower_strictly_antitone a b e :
  0 < a < b -> e < 0 -> Rpower b e < Rpower a e.
Proof.
  intros [Ha Hab] He.
  remember (- e) as m eqn:Em.
  replace e with (- m) by lra.
  rewrite (Rpower_Ropp b m), (Rpower_Ropp a m).
  apply Rinv_lt_contravar.
  - apply Rmult_lt_0_compat; unfold Rpower; apply exp_pos.
  - apply Rlt_Rpower_l; lra.
Qed.

Lemma spec_thermal_pressure_integral_increasing ps V1 V2 :
  0 < Spec.V0 ps -> Spec.q0 ps <> 0 -> 0 < Spec.Cv ps * Spec.gamma0 ps ->
  0 < V1 -> V1 < V2 ->
  Spec.thermal_pressure_integral ps V1 < Spec.thermal_pressure_integral ps V2.
Proof.
  intros HV0 Hq0 Hc H1 H12.
  assert (Hw1 : 0 < V1 / Spec.V0 ps) by (apply Rdiv_lt_0_compat; lra).
  assert (Hw12 : V1 / Spec.V0 ps < V2 / Spec.V0 ps).
  { unfold Rdiv. apply Rmult_lt_compat_r; [| lra].
    apply Rinv_0_lt_compat, HV0. }
  unfold Spec.thermal_pressure_integral, np_power.
  set (y1 := Rpower (V1 / Spec.V0 ps) (Spec.q0 ps)).
  set (y2 := Rpower (V2 / Spec.V0 ps) (Spec.q0 ps)).
  replace (Spec.Cv ps * Spec.gamma0 ps / Spec.q0 ps * (y1 - 1))
    with (Spec.Cv ps * Spec.gamma0 ps * ((y1 - 1) / Spec.q0 ps))
    by (field; assumption).
  replace (Spec.Cv ps * Spec.gamma0 ps / Spec.q0 ps * (y2 - 1))
    with (Spec.Cv ps * Spec.gamma0 ps * ((y2 - 1) / Spec.q0 ps))
    by (field; assumption).
  apply Rmult_lt_compat_l; [assumption |].
  destruct (Rtotal_order (Spec.q0 ps) 0) as [Hneg | [Hz | Hpos]];
    [| contradiction |].
  - assert (Hy : y2 < y1) by (apply Rpower_strictly_antitone; lra).
    assert (Hinv : / Spec.q0 ps < 0) by (apply Rinv_lt_0_compat, Hneg).
    unfold Rdiv. nra.
  - assert (Hy : y1 < y2) by (apply Rlt_Rpower_l; lra).
    assert (Hinv : 0 < / Spec.q0 ps) by (apply Rinv_0_lt_compat, Hpos).
    unfold Rdiv. nra.
Qed.

(** X14: the entropy grows with the temperature and with the volume.  For
    a valid Parameter Set, [entropy] is strictly increasing in the
    temperature on T > 0 when Cv > 0 (at every volume V > 0), and strictly
    increasing in the volume on V > 0 when Cv gamma0 > 0 (at every
    temperature T > 0, for either sign of q0). *)
Theorem entropy_increasing :
  forall (params : gmap string R) (ps : Spec.ParameterSet) (P P' : R),
    valid params ps ->
    (0 < Spec.Cv ps ->
     forall T1 T2 V, 0 < V -> 0 < T1 -> T1 < T2 ->
       exists S1 S2,
         entropy P T1 V params = ret S1 /\ entropy P' T2 V params = ret S2
         /\ S1 < S2)
    /\ (0 < Spec.Cv ps * Spec.gamma0 ps ->
        forall T V1 V2, 0 < T -> 0 < V1 -> V1 < V2 ->
          exists S1 S2,
            entropy P T V1 params = ret S1 /\ entropy P' T V2 params = ret S2
            /\ S1 < S2).
Proof.
  intros params ps P P' (H & HV0 & HT0 & Hq0).
  assert (HV0' : Spec.V0 ps <> 0) by lra.
  assert (HT0' : Spec.T0 ps <> 0) by lra.
  split.
  - intros HCv T1 T2 V HV H1 H12.
    exists (Spec.entropy ps T1 V), (Spec.entropy ps T2 V).
    rewrite !(entropy_ret _ ps H) by assumption.
    split; [reflexivity |]. split; [reflexivity |].
    unfold Spec.entropy, np_log.
    assert (Hln : ln (T1 / Spec.T0 ps) < ln (T2 / Spec.T0 ps)).
    { apply ln_increasing; [apply Rdiv_lt_0_compat; lra |].
      unfold Rdiv. apply Rmult_lt_compat_r; [| lra].
      apply Rinv_0_lt_compat, HT0. }
    nra.
  - intros Hc T V1 V2 HT H1 H12.
    exists (Spec.entropy ps T V1), (Spec.entropy ps T V2).
    rewrite !(entropy_ret _ ps H) by assumption.
    split; [reflexivity |]. split; [reflexivity |].
    unfold Spec.entropy.
    pose proof (spec_thermal_pressure_integral_increasing ps V1 V2
                  HV0 Hq0 Hc H1 H12).
    lra.
Qed.

(** On the scenario (Cv = 100), from 300 to 1000 at the reference
    volume. *)
Lemma entropy_increasing_scenario :
  exists S1 S2,
    entropy 0 300 (1 / 100000) (dict_of scenario) = ret S1
    /\ entropy 0 1000 (1 / 100000) (dict_of scenario) = ret S2
    /\ S1 < S2.
Proof.
  refine (proj1 (entropy_increasing (dict_of scenario) scenario 0 0
                   valid_scenario) _ 300 1000 (1 / 100000) _ _ _);
    cbn [Spec.Cv scenario]; lra.
Defined.

(** ** A dictionary without 'n' *)

(** X15: only [pressure] needs the key 'n'.  With the key deleted,
    [grueneisen_parameter], [heat_capacity_v], [entropy],
    [helmholtz_free_energy], [internal_energy] and [gibbs_free_energy]
    give what they give with it, while [pressure] raises KeyError('n') as
    soon as the finite strain is computed (V_0 present and the volume not
    zero). *)
Theorem only_pressure_needs_n :
  forall (params : gmap string R) (P T V : R),
    grueneisen_parameter P T V (delete "n" params)
    = grueneisen_parameter P T V params
    /\ heat_capacity_v P T V (delete "n" params) = heat_capacity_v P T V params
    /\ entropy P T V (delete "n" params) = entropy P T V params
    /\ helmholtz_free_energy P T V (delete "n" params)
       = helmholtz_free_energy P T V params
    /\ internal_energy P T V (delete "n" params) = internal_energy P T V params
    /\ gibbs_free_energy P T V (delete "n" params)
       = gibbs_free_energy P T V params
    /\ (is_Some (params !! "V_0") -> V <> 0 ->
        pressure T V (delete "n" params) = raise (KeyError "n")).
Proof.
  intros params P T V.
  assert (Hagree : forall k, k <> "n" -> delete "n" params !! k = params !! k)
    by (intros k Hk; apply lookup_delete_ne; congruence).
  split; [apply grueneisen_parameter_agree, Hagree |].
  split; [apply heat_capacity_v_agree, Hagree |].
  split; [apply entropy_agree, Hagree |].
  split; [apply helmholtz_free_energy_agree, Hagree |].
  split; [apply internal_energy_agree, Hagree |].
  split; [apply gibbs_free_energy_agree, Hagree |].
  intros [V_0 HV0] HV.
  apply (pressure_reads_n _ V_0); [| assumption | apply lookup_delete_eq].
  rewrite Hagree by discriminate. exact HV0.
Qed.

(** ** Enthalpy and Gibbs free energy at a consistent volume *)

(** X16: H = G + T S when the volume argument is the one [volume]
    returns.  If [volume(P, T, params)] returns V, and at (P, T, V)
    [gibbs_free_energy] returns G and [entropy] returns S, then
    [enthalpy(P, T, V, params)] returns G + T S. *)
Theorem enthalpy_is_gibbs_plus_TS :
  forall bracket brentq (P T V : R) (params : gmap string R) (G S : R),
    volume bracket brentq P T params = ret V ->
    gibbs_free_energy P T V params = ret G ->
    entropy P T V params = ret S ->
    enthalpy bracket brentq P T V params = ret (G + T * S).
Proof.
  intros bracket brentq P T V params G S HV HG HS.
  unfold enthalpy. unfold gibbs_free_energy in HG.
  destruct (helmholtz_free_energy P T V params) as [F | e];
    cbn [bind ret] in HG |- *; [| discriminate].
  rewrite HS, HV. cbn [bind ret].
  unfold ret in *. injection HG as <-. f_equal. ring.
Qed.

(** On the scenario at the reference state, where the stand-in solvers
    answer with the reference volume: G = 0 - 300 * 0 + 1 * 1.0e-5 and
    S = 0. *)
Lemma enthalpy_is_gibbs_plus_TS_scenario :
  enthalpy bracket_first_interval brentq_midpoint 1 300 (1 / 100000)
    (dict_of scenario)
  = ret (0 - 300 * 0 + 1 * (1 / 100000) + 300 * 0).
Proof.
  apply enthalpy_is_gibbs_plus_TS.
  - exact (volume_stand_in _ scenario 1 300 (holds_dict_of scenario)).
  - unfold gibbs_free_energy.
    rewrite (helmholtz_free_energy_ret _ scenario (holds_dict_of scenario))
      by (cbn [Spec.V0 Spec.T0 Spec.q0 scenario]; lra).
    cbn [bind ret]. f_equal. f_equal.
    exact (spec_helmholtz_reference scenario ltac:(cbn; lra) ltac:(cbn; lra)
             ltac:(cbn; lra)).
  - rewrite (entropy_ret _ scenario (holds_dict_of scenario))
      by (cbn [Spec.V0 Spec.T0 Spec.q0 scenario]; lra).
    f_equal.
    exact (spec_entropy_reference scenario ltac:(cbn; lra) ltac:(cbn; lra)
             ltac:(cbn; lra)).
Defined.

(** * The inversion with a bracketing search and a bisection *)

(** ** A zero between two values of opposite sign *)


(** ** The two solvers on a continuous function *)


Section Bisection.

Variable fn : R -> R * R * gmap string R -> result R.
Variable args : R * R * gmap string R.
Variable tol : R.
Hypothesis Htol : 0 < tol.


End Bisection.

(** ** The residual on positive volumes *)




(** ** [volume] on a starting bracket with a sign change *)

Section SpecSolvers.

Variables (max_bracket_iterations : nat) (bracket_search_factor : R).
Variables (max_root_iterations : nat) (root_tolerance : R).
Hypothesis Htol : 0 < root_tolerance.


End SpecSolvers.

(** ** The round trip *)





(** ** The inversion under compression *)






